(** * Neo42/blog: the content-to-presentation pipeline

    A shallow embedding of the blog's React components
    ([src/components/intro.js], [src/components/post-preview.js],
    [src/components/mdx-components.js]), of the syntax theme and of the
    front matter of the posts under [src/posts], followed by the
    properties the specification states about them.

    JavaScript values are an inductive type, objects are finite maps from
    property names to values, JSX is element construction, and a function
    that can raise returns a [completion]. *)

From Stdlib Require Import Strings.Ascii.
From stdpp Require Import gmap strings list fin_maps pretty.

Set Warnings "-register-all".
Open Scope string_scope.

(* ===================================================================== *)
(** ** JavaScript values *)
(* ===================================================================== *)

(** What an element can be typed with besides a host tag.  The first group
    is imported by the sources from other files or packages; the second is
    defined in the sources themselves; then come the root wrapper of the
    MDX runtime and the members of [Object.prototype], which a lookup by
    name on a plain object also answers. *)
Inductive comp :=
| cLink              (* next/link *)
| cDateFormatter     (* ../components/date-formatter *)
| cAvatar            (* ../components/avatar *)
| cCodeBlock         (* ./code-block *)
| cCustomLink        (* ./custom-link *)
| cHikeSteps         (* Hike of @code-hike/scrollycoding *)
| cFocus
| cCodeSlot
| cPreviewSlot
| cStepHead
| cWithFocusHandler (inner : comp)   (* withFocusHandler(inner) *)
| cIntro
| cPostPreview
| cHike
| cHikeWithPreview
| cHikeWithNoPreview
| cMdxWrapper        (* the default wrapper of @mdx-js/react *)
| cObjectPrototype (member : string).   (* Object.prototype[member] *)

(** The [type] of a React element: a host tag such as [div], or a
    component. *)
Inductive etype :=
| Host (tag : string)
| Comp (c : comp).

(** The values the components see.  A number is integer-valued; a string
    is compared and concatenated only, so text outside ASCII is carried as
    its bytes.  An object is a plain one: its prototype is
    [Object.prototype] and its properties are data properties, none of
    them a function (front matter and JSX attribute literals build no
    other).  An element holds its type, the value its key is the string
    of, if it has one, its [ref] ([null] where none is given) and its
    props, from which React has taken the reserved names. *)
Inductive jsval :=
| VUndefined
| VNull
| VBool (b : bool)
| VNum (z : Z)
| VStr (s : string)
| VObj (fields : gmap string jsval)
| VArr (items : list jsval)
| VElem (ty : etype) (key : option jsval) (ref : jsval)
    (props : gmap string jsval).

Inductive js_error :=
| TypeError (msg : string)
| Error (msg : string).

(** The outcome of running a function body: a value, or a raised error. *)
Inductive completion (A : Type) :=
| Normal (a : A)
| Throw (e : js_error).
Arguments Normal {A} a.
Arguments Throw {A} e.

#[global] Instance completion_ret : MRet completion := @Normal.
#[global] Instance completion_bind : MBind completion :=
  λ A B f m, match m with Normal a => f a | Throw e => Throw e end.

#[global] Instance comp_eq_dec : EqDecision comp.
Proof. solve_decision. Defined.
#[global] Instance etype_eq_dec : EqDecision etype.
Proof. solve_decision. Defined.

(** [o.k] on a props object: a property that is absent reads as
    [undefined].  The names read here ([title], [date], [excerpt],
    [author], [slug], [config], [editorProps], [children]) are not on
    [Object.prototype], so only own properties count. *)
Definition get (o : gmap string jsval) (k : string) : jsval :=
  default VUndefined (o !! k).

(** Own enumerable properties of an array: its items under their indices. *)
Definition array_own_props (items : list jsval) : gmap string jsval :=
  list_to_map (imap (λ (i : nat) x, (pretty i, x)) items).

(** What this development leaves open: the own enumerable properties of a
    string (its UTF-16 code units under their indices) and of a React
    element (the fields React gives the element object), and the digits
    [ToString] prints for a number, which are the decimal ones for the
    integers a double holds exactly one by one. *)
Class ExoticObjects := {
  string_own_props : string → gmap string jsval;
  element_own_props :
    etype → option jsval → jsval → gmap string jsval →
    gmap string jsval;
  number_to_string : Z → string;
  number_to_string_safe z :
    (- 2 ^ 53 < z < 2 ^ 53)%Z → number_to_string z = pretty z;
}.

(** [{...source}] onto [target] in an object literal or a JSX attribute
    list: properties written later win. *)
Definition assign (target source : gmap string jsval) : gmap string jsval :=
  source ∪ target.

Section values.
Context `{ExoticObjects}.

(** The properties a spread [...v] copies. *)
Definition own_props (v : jsval) : gmap string jsval :=
  match v with
  | VObj fields => fields
  | VArr items => array_own_props items
  | VStr s => string_own_props s
  | VElem ty key ref props => element_own_props ty key ref props
  | VUndefined | VNull | VBool _ | VNum _ => ∅
  end.

(** A parameter written as an object pattern, [function f({a, ...rest})]:
    [undefined] and [null] cannot be destructured. *)
Definition destructure (v : jsval) : completion (gmap string jsval) :=
  match v with
  | VUndefined | VNull =>
      Throw (TypeError "Cannot destructure 'undefined' or 'null'")
  | _ => Normal (own_props v)
  end.

(** The strings of the items of an array, as [join] makes them:
    [undefined] and [null] count as empty. *)
Definition join_items (item : jsval → completion string)
    : list jsval → completion (list string) :=
  fix go (l : list jsval) : completion (list string) :=
    match l with
    | [] => Normal []
    | x :: rest =>
        s ← match x with
            | VUndefined | VNull => Normal ""
            | _ => item x
            end;
        others ← go rest;
        Normal (s :: others)
    end.

(** [ToString], as a template literal applies it to [${v}].  An object is
    converted by its [toString] and then its [valueOf]: an own [toString]
    is no function and hides the inherited one, and the inherited
    [valueOf] answers the object itself, so the conversion raises; without
    an own [toString] the inherited one answers [[object Object]].  An
    array joins the strings of its items with commas. *)
Fixpoint to_string (v : jsval) : completion string :=
  match v with
  | VUndefined => Normal "undefined"
  | VNull => Normal "null"
  | VBool true => Normal "true"
  | VBool false => Normal "false"
  | VNum z => Normal (number_to_string z)
  | VStr s => Normal s
  | VObj fields =>
      match fields !! "toString" with
      | Some _ => Throw (TypeError "Cannot convert object to primitive value")
      | None => Normal "[object Object]"
      end
  | VElem _ _ _ _ => Normal "[object Object]"
  | VArr items =>
      parts ← join_items to_string items;
      Normal (String.concat "," parts)
  end.
End values.

(** The values [ToString] raises on: an object with an own [toString],
    and an array that holds such a value. *)
Fixpoint to_string_raises (v : jsval) : bool :=
  match v with
  | VObj fields => bool_decide (is_Some (fields !! "toString"))
  | VArr items => existsb to_string_raises items
  | _ => false
  end.

(* ===================================================================== *)
(** ** JSX *)
(* ===================================================================== *)

(** The attribute names React keeps out of an element's props. *)
Definition reserved_props : list string :=
  [ "key"; "ref"; "__self"; "__source" ].

Definition strip_reserved (config : gmap string jsval) : gmap string jsval :=
  delete "key" (delete "ref" (delete "__self" (delete "__source" config))).

(** The key of an element: the [key] attribute, unless it is absent or
    [undefined].  React keeps the string of this value; the elements here
    keep the value, and the conversion is not made. *)
Definition key_of (config : gmap string jsval) : option jsval :=
  match config !! "key" with
  | Some VUndefined | None => None
  | Some v => Some v
  end.

(** The ref of an element: the [ref] attribute, or [null] where it is
    absent or [undefined]. *)
Definition ref_of (config : gmap string jsval) : jsval :=
  match config !! "ref" with
  | Some VUndefined | None => VNull
  | Some v => v
  end.

(** [<ty {...config}>children</ty>]: [key] and [ref] go beside the props,
    the reserved names are left out of them; no child leaves
    [config.children] as it is, one child becomes [children], several
    become an array. *)
Definition jsx (ty : etype) (config : gmap string jsval)
    (children : list jsval) : jsval :=
  VElem ty (key_of config) (ref_of config)
    match children with
    | [] => strip_reserved config
    | [c] => <["children" := c]> (strip_reserved config)
    | _ => <["children" := VArr children]> (strip_reserved config)
    end.

(** The props of every element of component [c] in a tree, in document
    order, following [children]. *)
Fixpoint find (c : comp) (v : jsval) : list (gmap string jsval) :=
  match v with
  | VArr items => flat_map (find c) items
  | VElem ty _ _ props =>
      (if decide (ty = Comp c) then [props] else [])
        ++ default [] ((find c <$> props) !! "children")
  | _ => []
  end.

(** The target paths of the links of a tree: [as] of every [Link]. *)
Definition link_targets (v : jsval) : list jsval :=
  (λ props, get props "as") <$> find cLink v.

Definition elem_type (v : jsval) : option etype :=
  match v with VElem ty _ _ _ => Some ty | _ => None end.

Definition elem_key (v : jsval) : option jsval :=
  match v with VElem _ key _ _ => key | _ => None end.

Definition elem_props (v : jsval) : option (gmap string jsval) :=
  match v with VElem _ _ _ props => Some props | _ => None end.

(** The children of an element, as a list. *)
Definition elem_children (v : jsval) : list jsval :=
  match v with
  | VElem _ _ _ props =>
      match props !! "children" with
      | None => []
      | Some (VArr items) => items
      | Some c => [c]
      end
  | _ => []
  end.

(* ===================================================================== *)
(** ** src/components/intro.js *)
(* ===================================================================== *)

Definition Intro (_ : jsval) : completion jsval :=
  Normal
    (jsx (Host "section")
       {[ "className" := VStr "flex flex-col items-center mt-16 mb-16 md:flex-row md:justify-between md:mb-12" ]}
       [ jsx (Host "h1")
           {[ "className" := VStr "text-6xl font-bold leading-tight tracking-tighter md:text-8xl md:pr-8" ]}
           [ VStr "Blog." ];
         jsx (Host "h4")
           {[ "className" := VStr "mt-5 text-lg text-center md:text-left md:pl-8" ]}
           [ VStr "by";
             VStr " ";
             jsx (Host "a")
               {[ "href" := VStr "https://github.com/Neo42";
                  "className" := VStr "underline transition-colors duration-200 hover:text-success" ]}
               [ VStr "Johnny Jiang" ] ] ]).

(* ===================================================================== *)
(** ** src/components/post-preview.js *)
(* ===================================================================== *)

Section post_preview.
Context `{ExoticObjects}.

(** [author] is bound by the parameter pattern and used nowhere: the
    [Avatar] line of the source is commented out.  The template literal
    [`/posts/${slug}`] is the one operation of the body that can raise. *)
Definition PostPreview (arg : jsval) : completion jsval :=
  o ← destructure arg;
  let title := get o "title" in
  let date := get o "date" in
  let excerpt := get o "excerpt" in
  let author := get o "author" in
  let slug := get o "slug" in
  slug_text ← to_string slug;
  Normal
    (jsx (Host "div") {[ "className" := VStr "my-40" ]}
       [ jsx (Host "h3")
           {[ "className" := VStr "mb-3 text-3xl font-bold leading-snug" ]}
           [ jsx (Comp cLink)
               {[ "as" := VStr ("/posts/" ++ slug_text);
                  "href" := VStr "/posts/[slug]";
                  "className" := VStr "hover:underline" ]}
               [ title ] ];
         jsx (Host "div") {[ "className" := VStr "mb-4 text-lg" ]}
           [ jsx (Comp cDateFormatter) {[ "dateString" := date ]} [] ];
         jsx (Host "p")
           {[ "className" := VStr "mb-4 text-lg leading-relaxed" ]}
           [ excerpt ] ]).
End post_preview.

(* ===================================================================== *)
(** ** src/components/mdx-components.js *)
(* ===================================================================== *)

Definition classes : gmap string jsval :=
  {[ "ch-hike-step-content-unfocused" := VStr "opacity-25 transition-opacity";
     "ch-hike-step-content" := VStr "border-none";
     "ch-frame-button" := VStr "bg-button-bg border-button-bg";
     "ch-frame-title-bar" := VStr "bg-editor-bg";
     "ch-editor-tab" := VStr "border-none bg-editor-bg" ]}.

Definition preset : gmap string jsval :=
  {[ "template" := VStr "react";
     "customSetup" :=
       VObj {[ "dependencies" :=
                 VObj {[ "react-svg-curve" := VStr "0.2.0" ]} ]} ]}.

Section hike.
Context `{ExoticObjects}.

(** [function Hike({config, ...props})]: [props] is what is left of the
    argument once [config] is taken out.  In the element, [classes],
    [config] and [preset] stand before [{...props}] and [editorProps]
    after it. *)
Definition Hike (arg : jsval) : completion jsval :=
  o ← destructure arg;
  let config := get o "config" in
  let props := delete "config" o in
  let editorProps :=
    assign
      {[ "codeProps" := VObj {[ "minColumns" := VNum 40 ]};
         "frameProps" := VObj {[ "button" := VNull ]} ]}
      (own_props (get props "editorProps")) in
  let defaultConfig : gmap string jsval :=
    {[ "noPreview" := VBool false;
       "defaultFileName" := VStr "App.js" ]} in
  Normal
    (jsx (Comp cHikeSteps)
       (<["editorProps" := VObj editorProps]>
          (assign
             {[ "classes" := VObj classes;
                "config" := VObj (assign defaultConfig (own_props config));
                "preset" := VObj preset ]}
             props))
       []).

Definition HikeWithPreview (props : jsval) : completion jsval :=
  Normal (jsx (Comp cHike) (own_props props) []).

Definition HikeWithNoPreview (props : jsval) : completion jsval :=
  Normal
    (jsx (Comp cHike)
       (assign
          {[ "config" := VObj {[ "noPreview" := VBool true ]} ]}
          (own_props props))
       []).

(** React renders an element of a function component by calling the
    function on the element's props.  Components whose body is not in the
    sources answer [None]. *)
Definition call (c : comp) (props : jsval) : option (completion jsval) :=
  match c with
  | cIntro => Some (Intro props)
  | cPostPreview => Some (PostPreview props)
  | cHike => Some (Hike props)
  | cHikeWithPreview => Some (HikeWithPreview props)
  | cHikeWithNoPreview => Some (HikeWithNoPreview props)
  | _ => None
  end.

(** One rendering step at the root of a tree: an element of a component
    of the sources is replaced by what the component returns on the
    element's props, which hold no reserved name; any other node is left
    for React and the imported components. *)
Definition instantiate (v : jsval) : completion jsval :=
  match v with
  | VElem (Comp c) _ _ props =>
      match call c (VObj (strip_reserved props)) with
      | Some r => r
      | None => Normal v
      end
  | _ => Normal v
  end.

(** Rendering [f(props)] down to the element the imported renderer
    receives: [steps] rendering steps at the root. *)
Fixpoint render_root (steps : nat) (v : jsval) : completion jsval :=
  match steps with
  | 0 => Normal v
  | S n => v' ← instantiate v; render_root n v'
  end.
End hike.

(** The exported registry, as the own properties of the object literal:
    MDX tag name to renderer. *)
Definition components : gmap string comp :=
  {[ "pre" := cCodeBlock;
     "a" := cWithFocusHandler cCustomLink;
     "Hike" := cHike;
     "HikeWithPreview" := cHikeWithPreview;
     "HikeWithNoPreview" := cHikeWithNoPreview;
     "Focus" := cFocus;
     "StepHead" := cStepHead;
     "CodeSlot" := cCodeSlot;
     "PreviewSlot" := cPreviewSlot ]}.

(** The property names of [Object.prototype], which every object literal
    inherits. *)
Definition object_prototype_names : list string :=
  [ "constructor"; "__defineGetter__"; "__defineSetter__";
    "hasOwnProperty"; "__lookupGetter__"; "__lookupSetter__";
    "isPrototypeOf"; "propertyIsEnumerable"; "toString"; "valueOf";
    "__proto__"; "toLocaleString" ].

(** [registry[tag]]: an own property, else the inherited member of that
    name, else [undefined]. *)
Definition registry_get (registry : gmap string comp) (tag : string)
    : option comp :=
  match registry !! tag with
  | Some c => Some c
  | None =>
      if decide (tag ∈ object_prototype_names)
      then Some (cObjectPrototype tag)
      else None
  end.

(** Modelled from the spec: the default handling of section 4.1, as the
    MDX runtime, an external library, has it for a tag the registry does
    not answer: inline code becomes a [code] element, and the root
    wrapper a fragment of its children. *)
Definition mdx_defaults : gmap string etype :=
  {[ "inlineCode" := Host "code"; "wrapper" := Comp cMdxWrapper ]}.

(** Modelled from the spec: the default handling of a tag, the runtime's
    own element where it has one, else the HTML element of that name. *)
Definition default_element (tag : string) : etype :=
  default (Host tag) (mdx_defaults !! tag).

(** Modelled from the spec: the MDX runtime, an external library, which
    section 4.1 describes as rendering a tag the registry answers with
    what it answers, and any other tag with default HTML element
    handling.  (The runtime first asks the registry for the tag prefixed
    with its parent's name and a dot; no own or inherited name of this
    registry has a dot.) *)
Definition resolve_tag (registry : gmap string comp) (tag : string) : etype :=
  match registry_get registry tag with
  | Some c => Comp c
  | None => default_element tag
  end.

(** An MDX tag with its attributes and children, as the runtime turns it
    into an element. *)
Definition mdx_element (registry : gmap string comp) (tag : string)
    (attrs : gmap string jsval) (children : list jsval) : completion jsval :=
  Normal (jsx (resolve_tag registry tag) attrs children).

(** The HikeSteps configuration an element delegates, when it is a
    [HikeSteps] element with an object under [config]. *)
Definition delegated_config (v : jsval) : option (gmap string jsval) :=
  match v with
  | VElem (Comp cHikeSteps) _ _ props =>
      match props !! "config" with
      | Some (VObj cfg) => Some cfg
      | _ => None
      end
  | _ => None
  end.

(* ===================================================================== *)
(** ** Content files and Posts *)
(* ===================================================================== *)

Module Content.

(** A content file as the build step sees it: where it is, the front
    matter as the YAML library (an external collaborator) parsed it, and
    the Markdown/MDX text after it. *)
Record file := {
  path : string;
  front_matter : gmap string jsval;
  text : string;
}.

(** The Post of section 3 of the specification. *)
Record Post := {
  title : string;
  excerpt : string;
  date : string;
  coverImage : jsval;
  author : jsval;
  ogImage : jsval;
  slug : string;
  body : string;
}.

(** A build-time validation error: the offending file and field. *)
Inductive error :=
| ValidationError (file_path : string) (field : string).

Definition error_path (e : error) : string :=
  match e with ValidationError p _ => p end.

Definition required_fields : list string := ["title"; "excerpt"; "date"].

(** Modelled from the spec: the slug of a post, which the glossary
    derives from the file name; the loader that does it is not among the
    sources.  The directories and a closing [.md] are dropped. *)
Fixpoint basename_from (acc s : string) : string :=
  match s with
  | "" => acc
  | String c rest =>
      if decide (c = "/"%char) then basename_from "" rest
      else basename_from (acc ++ String c "") rest
  end.

Definition slug_of_path (p : string) : string :=
  let name := basename_from "" p in
  let n := String.length name in
  if decide (String.substring (n - 3) 3 name = ".md")
  then String.substring 0 (n - 3) name
  else name.

(** A field of the front matter that holds text. *)
Definition text_field (fm : gmap string jsval) (k : string) : option string :=
  match fm !! k with
  | Some (VStr s) => Some s
  | _ => None
  end.

(** Modelled from the spec: the content loader, which is not among the
    sources.  Sections 3, 7 and 8: a Post has a title, an excerpt and a
    date; an empty title does not pass validation; a file whose front
    matter lacks a required field fails with an error that lists the
    file path, and no Post is made of it. *)
Definition load (f : file) : error + Post :=
  let fm := front_matter f in
  match text_field fm "title" with
  | None | Some "" => inl (ValidationError (path f) "title")
  | Some t =>
      match text_field fm "excerpt" with
      | None => inl (ValidationError (path f) "excerpt")
      | Some e =>
          match text_field fm "date" with
          | None => inl (ValidationError (path f) "date")
          | Some d =>
              inr {| title := t; excerpt := e; date := d;
                     coverImage := get fm "coverImage";
                     author := get fm "author";
                     ogImage := get fm "ogImage";
                     slug := slug_of_path (path f);
                     body := text f |}
          end
      end
  end.

(** A Post as the object handed to the components. *)
Definition post_object (p : Post) : gmap string jsval :=
  {[ "title" := VStr (title p);
     "excerpt" := VStr (excerpt p);
     "date" := VStr (date p);
     "coverImage" := coverImage p;
     "author" := author p;
     "ogImage" := ogImage p;
     "slug" := VStr (slug p);
     "body" := VStr (body p) ]}.

Definition dq : string := String "034"%char "".

Definition hao : jsval :=
  VObj {[ "name" := VStr "Hao Jiang";
          "picture" := VStr "/assets/blog/authors/hao.png" ]}.

(** *** Front matter of the files under [src/posts] *)

Definition fp_md : gmap string jsval :=
  {[ "title" := VStr "FP in Plain English: How Composition & Currying Work";
     "excerpt" := VStr "Functional programming is a cool programming style with a lot of neat benefits, but it's also poorly explained and rarely understood. It's mainly because of the lack of intuition in math language. People can't understand you if you sound alien. In this series of posts, I'm going to shortly explain to you some FP concepts in plain and simple, day-to-day English. Hope you find this helpful.";
     "coverImage" := VStr "/assets/blog/fp/cover.jpg";
     "date" := VStr "2021-04-09" ]}.

Definition monad_md : gmap string jsval :=
  {[ "title" := VStr "How to Build a Mini IO Monad";
     "excerpt" := VStr ("Instinctively, when we look at a difficult concept for the first time, that ONE question that pops into our minds is usually " ++ dq ++ "what is it" ++ dq ++ ". Because asking " ++ dq ++ "what" ++ dq ++ " is such a valuable human nature that helps us protect ourselves from our natural enemy in the old days. And it can be effective if we already know what we could be dealing with. Lions, tigers, or cute puppies. But if this unfamiliar concept is deeper than you thought it would be, you'd better switch your tactics and asking " ++ dq ++ "how does it work" ++ dq ++ ", more close to our instincts, " ++ dq ++ "what can it do" ++ dq ++ " or " ++ dq ++ "what can it be used for" ++ dq ++ ". By asking the right question, we can just discover the concept ourselves.");
     "coverImage" := VStr "/assets/blog/monad/cover.jpg";
     "date" := VStr "2021-04-25" ]}.

Definition react_performance_recipes_md : gmap string jsval :=
  {[ "title" := VStr "React Performance Recipes";
     "excerpt" := VStr "Performance optimization can be daunting, but there are still more solutions than problems. In this post, I talked about how to tackle common performance issues when developing with React. Get a solution for every React performance problem you might encounter.";
     "coverImage" := VStr "/assets/blog/react-po/cover.jpg";
     "date" := VStr "2022-01-05";
     "author" := hao;
     "ogImage" := VObj {[ "url" := VStr "/assets/blog/react-po/cover.jpg" ]} ]}.

Definition react_md : gmap string jsval :=
  {[ "title" := VStr "How to Build a Mini React: From JSX Element to useState";
     "excerpt" := VStr (dq ++ "What I cannot create, I do not understand." ++ dq ++ " - Richard Feynman");
     "coverImage" := VStr "/assets/blog/react/cover.jpg";
     "date" := VStr "2022-03-27" ]}.

Definition service_worker_md : gmap string jsval :=
  {[ "title" := VStr "Service Worker Explained";
     "excerpt" := VStr "Websites are by default fragile and brittle, as they are always failing because of slow connections, server downtime and simply going offline. However, service workers might be a good way to help the web have an intuitive and empathetic experience for the user.";
     "date" := VStr "2022-03-23" ]}.

(** *** Front matter of the posts the sources carry after another file *)

(** After [src/components/post-preview.js]. *)
Definition closures_doc : gmap string jsval :=
  {[ "title" := VStr "How Closures Work";
     "excerpt" := VStr "Closures are not easy to grasp, but it ain’t impossible. We, as learners, have to understand that, 99% of the time, a concept is always built upon others. We have to figure out how all those dots are connected. Who’s first, who’s next. It’s usually a good approach to trace what you don’t understand in reverse. Start with the definition, break it, and repeat it on every small part. And here, we are gonna do this on closures.";
     "coverImage" := VStr "/assets/blog/dynamic-routing/cover.jpg";
     "date" := VStr "2020-06-19";
     "author" := hao;
     "ogImage" := VObj {[ "url" := VStr "/assets/blog/closure/cover.jpg" ]} ]}.

(** After [src/posts/monad.md]. *)
Definition recipes_doc : gmap string jsval :=
  {[ "title" := VStr "React Performance Recipes";
     "excerpt" := VStr "Performance optimization can be daunting, but there are still more solutions than problems. In this post, I talked about how to tackle common performance issues when developing with React. Get a solution for every React performance problem you might encounter.";
     "coverImage" := VStr "/assets/blog/react-po/cover.jpg";
     "date" := VStr "2022-01-05" ]}.

(** After [src/posts/react-performance-recipes.md]. *)
Definition mini_react_doc : gmap string jsval :=
  {[ "title" := VStr "How to Build a Mini React (wip 🚧)";
     "excerpt" := VStr ("Create your own version of a thing is THE way to understand it. So I decided to rewrite a simple version of React from scratch. I'm going to call the little library " ++ dq ++ "Reacti" ++ dq ++ " since it is just my personal little " ++ dq ++ "recreation" ++ dq ++ " of that mighty tool, and that name sounds natural to me.");
     "coverImage" := VStr "/assets/blog/react/cover.jpg";
     "date" := VStr "2021-06-30";
     "author" := hao;
     "ogImage" := VObj {[ "url" := VStr "/assets/blog/react/cover.jpg" ]} ]}.

(** After [src/posts/fp.md]. *)
Definition functor_doc : gmap string jsval :=
  {[ "title" := VStr "How to Build a Mini Functor";
     "excerpt" := VStr "Functors and monads. Both of them are useful and important design patterns in functional programming. More importantly, you can't understand monads without functors. So in this post, let's talk about functors. let's start with the definition of a functor.";
     "coverImage" := VStr "/assets/blog/hello-world/cover.jpg";
     "date" := VStr "2021-04-12";
     "author" := hao;
     "ogImage" := VObj {[ "url" := VStr "/assets/blog/hello-world/cover.jpg" ]} ]}.

(** The content set: every front matter block of the sources, under the
    path of the file it is found in. *)
Definition content_set : list (string * gmap string jsval) :=
  [ ("src/posts/fp.md", fp_md);
    ("src/posts/monad.md", monad_md);
    ("src/posts/react-performance-recipes.md", react_performance_recipes_md);
    ("src/posts/react.md", react_md);
    ("src/posts/service-worker.md", service_worker_md);
    ("src/components/post-preview.js", closures_doc);
    ("src/posts/monad.md", recipes_doc);
    ("src/posts/react-performance-recipes.md", mini_react_doc);
    ("src/posts/fp.md", functor_doc) ].

End Content.

(* ===================================================================== *)
(** ** Markup *)
(* ===================================================================== *)

(** What React makes of a tree: text, and tags with their attributes and
    content. *)
Inductive markup :=
| MText (s : string)
| MTag (tag : string) (attrs : gmap string jsval) (content : list markup).

(** The text a piece of markup shows. *)
Fixpoint text_of (m : markup) : string :=
  match m with
  | MText s => s
  | MTag _ _ content =>
      (fix go (l : list markup) : string :=
         match l with
         | [] => ""
         | x :: rest => text_of x ++ go rest
         end) content
  end.

Section rendering.
Context `{ExoticObjects}.

(** How a component that is imported renders: from its props, its
    children apart, and the markup of its children to its own markup.
    The components themselves are not among the sources. *)
Variable render_imported :
  comp → gmap string jsval → list markup → completion (list markup).

(** React rendering a tree to markup.  [undefined], [null] and booleans
    render nothing, strings and numbers are text, an array is its items
    in order, a plain object is no child; a host element is its tag
    around its children; an element of a component of the sources is
    what the component returns on the element's props, rendered; an
    element of an imported component is what that component makes of
    the markup of its children.  [fuel] bounds the depth of the
    rendering; [None] says it was too small. *)
Fixpoint render (fuel : nat) (v : jsval) : option (completion (list markup)) :=
  match fuel with
  | 0 => None
  | S n =>
      match v with
      | VUndefined | VNull | VBool _ => Some (Normal [])
      | VStr s => Some (Normal [MText s])
      | VNum z => Some (Normal [MText (number_to_string z)])
      | VObj _ =>
          Some (Throw (Error "Objects are not valid as a React child"))
      | VArr items =>
          (fix each (l : list jsval) : option (completion (list markup)) :=
             match l with
             | [] => Some (Normal [])
             | x :: rest =>
                 match render n x with
                 | Some (Normal m) =>
                     match each rest with
                     | Some (Normal ms) => Some (Normal (m ++ ms)%list)
                     | other => other
                     end
                 | other => other
                 end
             end) items
      | VElem (Host tag) _ _ props =>
          match render n (get props "children") with
          | Some (Normal m) =>
              Some (Normal [MTag tag (delete "children" props) m])
          | other => other
          end
      | VElem (Comp c) _ _ props =>
          match call c (VObj (strip_reserved props)) with
          | Some (Normal e) => render n e
          | Some (Throw err) => Some (Throw err)
          | None =>
              match render n (get props "children") with
              | Some (Normal m) =>
                  Some (render_imported c
                          (delete "children" (strip_reserved props)) m)
              | other => other
              end
          end
      end
  end.
End rendering.

(* ===================================================================== *)
(** ** Vocabulary of the statements *)
(* ===================================================================== *)

(** An attribute is missing from a props object when it is absent or
    holds [undefined]: both read as [undefined]. *)
Definition missing (props : gmap string jsval) (k : string) : Prop :=
  get props k = VUndefined.

(** An attribute of a Post as a preview gets it: text, or missing. *)
Definition text_or_missing (v : jsval) : Prop :=
  v = VUndefined ∨ ∃ s, v = VStr s.

(** Props as React hands them to a component: no reserved name among
    them. *)
Definition no_reserved (props : gmap string jsval) : Prop :=
  Forall (λ k, props !! k = None) reserved_props.

(** Markup that shows no text. *)
Definition blank (l : list markup) : Prop :=
  Forall (λ m, text_of m = "") l.

(** The preview block, around the markup of its link, of its date and of
    its excerpt. *)
Definition preview_block (link date excerpt : list markup) : list markup :=
  [ MTag "div" {[ "className" := VStr "my-40" ]}
      [ MTag "h3"
          {[ "className" := VStr "mb-3 text-3xl font-bold leading-snug" ]}
          link;
        MTag "div" {[ "className" := VStr "mb-4 text-lg" ]} date;
        MTag "p" {[ "className" := VStr "mb-4 text-lg leading-relaxed" ]}
          excerpt ] ].

(** The defaults as section 4.1 and the claim about [Hike] word them, to
    be compared with what [Hike] builds. *)
Definition stated_defaults : gmap string jsval :=
  {[ "noPreview" := VBool false; "defaultFileName" := VStr "App.js" ]}.

(** The keys the registry is said to have. *)
Definition stated_keys : list string :=
  [ "pre"; "a"; "Hike"; "HikeWithPreview"; "HikeWithNoPreview";
    "Focus"; "StepHead"; "CodeSlot"; "PreviewSlot" ].

(** A layout for strings and elements under which examples can be run:
    the examples spread neither, and numbers print their decimal
    digits. *)
Definition example_host : ExoticObjects :=
  {| string_own_props := λ _, ∅;
     element_own_props := λ _ _ _ _, ∅;
     number_to_string := pretty;
     number_to_string_safe := λ _ _, eq_refl |}.

(** Imported components under which examples can be run: a link is an
    anchor to its [as] around its children, a date is shown as it is
    written, and any other component shows its children. *)
Definition example_imports (c : comp) (props : gmap string jsval)
    (content : list markup) : completion (list markup) :=
  match c with
  | cLink => Normal [MTag "a" {[ "href" := get props "as" ]} content]
  | cDateFormatter =>
      match get props "dateString" with
      | VStr s => Normal [MTag "time" {[ "dateTime" := VStr s ]} [MText s]]
      | _ => Normal []
      end
  | _ => Normal content
  end.

(** Inputs of the examples. *)
Definition sample_props : gmap string jsval :=
  {[ "title" := VStr "Sample"; "slug" := VStr "sample" ]}.

Definition title_only_props : gmap string jsval :=
  {[ "title" := VStr "Sample" ]}.

Definition file_name_config : gmap string jsval :=
  {[ "defaultFileName" := VStr "index.js" ]}.

Definition config_props : gmap string jsval :=
  {[ "config" := VObj file_name_config ]}.

Definition children_props : gmap string jsval :=
  {[ "children" := jsx (Comp cStepHead) ∅ [VStr "Step one"] ]}.

Definition keyed_props : gmap string jsval :=
  {[ "key" := VStr "k"; "title" := VStr "t" ]}.

Definition no_date_file : Content.file :=
  {| Content.path := "src/posts/no-date.md";
     Content.front_matter :=
       {[ "title" := VStr "Sample"; "excerpt" := VStr "A sample post." ]};
     Content.text := "" |}.

Definition authored_props (author : jsval) : gmap string jsval :=
  <["author" := author]> sample_props.

(** A slug no string can be made of. *)
Definition unprintable : jsval := VObj {[ "toString" := VNull ]}.

(** What holds of an entry of the content set that meets the required
    field invariant: its front matter has a title, an excerpt and a date,
    none of them empty, and the loader makes a Post with these fields of
    the file, whatever its body. *)
Definition valid_entry (entry : string * gmap string jsval) : Prop :=
  ∃ t e d,
    entry.2 !! "title" = Some (VStr t) ∧ t ≠ "" ∧
    entry.2 !! "excerpt" = Some (VStr e) ∧ e ≠ "" ∧
    entry.2 !! "date" = Some (VStr d) ∧ d ≠ "" ∧
    ∀ md, ∃ post,
      Content.load {| Content.path := entry.1;
                      Content.front_matter := entry.2;
                      Content.text := md |} = inr post ∧
      Content.title post = t ∧ Content.excerpt post = e ∧
      Content.date post = d.

(* ===================================================================== *)
(** ** Further vocabulary: what [Hike] writes, and inputs of examples *)
(* ===================================================================== *)

(** A prop of an element. *)
Definition elem_prop (v : jsval) (k : string) : option jsval :=
  elem_props v ≫= (λ props, props !! k).

(** The editor defaults as the object literal of [Hike] writes them. *)
Definition editor_defaults : gmap string jsval :=
  {[ "codeProps" := VObj {[ "minColumns" := VNum 40 ]};
     "frameProps" := VObj {[ "button" := VNull ]} ]}.

(** The attributes [Hike] writes before [{...props}], [config] apart. *)
Definition overridable_defaults : gmap string jsval :=
  {[ "classes" := VObj classes; "preset" := VObj preset ]}.

(** Values whose spread copies nothing. *)
Definition spreads_nothing (v : jsval) : bool :=
  match v with
  | VUndefined | VNull | VBool _ | VNum _ => true
  | _ => false
  end.

Definition hike_tags : list string :=
  [ "Hike"; "HikeWithPreview"; "HikeWithNoPreview" ].

(** Inputs of further examples. *)
Definition custom_classes : jsval :=
  VObj {[ "ch-frame-button" := VStr "hidden" ]}.

Definition custom_classes_props : gmap string jsval :=
  {[ "classes" := custom_classes ]}.

Definition null_config_props : gmap string jsval :=
  {[ "config" := VNull ]}.

Definition other_props : gmap string jsval :=
  {[ "title" := VStr "Other"; "slug" := VStr "other" ]}.

Definition walkthrough_steps : list jsval :=
  [ jsx (Comp cStepHead) ∅ [VStr "Step one"]; jsx (Comp cCodeSlot) ∅ [] ].

(** The value of a decimal digit. *)
Definition digit_value (c : ascii) : option nat :=
  let n := nat_of_ascii c in
  if bool_decide (48 ≤ n ≤ 57)%nat then Some (n - 48)%nat else None.

(** A calendar date written [YYYY-MM-DD], the month within 1..12 and the
    day within 1..31. *)
Definition iso_date (s : string) : bool :=
  match String.list_ascii_of_string s with
  | [y1; y2; y3; y4; dash1; m1; m2; dash2; d1; d2] =>
      match mapM digit_value [y1; y2; y3; y4], digit_value m1,
            digit_value m2, digit_value d1, digit_value d2 with
      | Some _, Some a, Some b, Some c, Some d =>
          bool_decide (dash1 = "-"%char ∧ dash2 = "-"%char
                       ∧ 1 ≤ 10 * a + b ≤ 12 ∧ 1 ≤ 10 * c + d ≤ 31)%nat
      | _, _, _, _, _ => false
      end
  | _ => false
  end.

(* ===================================================================== *)
(** ** src/unnamed/part_000: the syntax theme *)
(* ===================================================================== *)

Module Theme.

(** The selectors of the token rules: [.token.cls], and
    [.ancestor .token.cls] for a token below an element of class
    [ancestor]. *)
Inductive selector :=
| Token (cls : string)
| TokenIn (ancestor cls : string).

(** A declared value: [var(--name)], or literal text. *)
Inductive css_value :=
| Var (name : string)
| Lit (text : string).

(** A rule of the sheet; each token rule has one declaration. *)
Record rule := {
  selectors : list selector;
  property : string;
  value : css_value;
}.

#[global] Instance selector_eq_dec : EqDecision selector.
Proof. solve_decision. Defined.
#[global] Instance css_value_eq_dec : EqDecision css_value.
Proof. solve_decision. Defined.

(** The custom properties of [pre[class*='language-']]. *)
Definition palette : list (string * string) :=
  [ ("comment", "#a6accd");
    ("punctuation", "#e4f0fb");
    ("property", "#e4f0fb");
    ("boolean", "#5de4c7");
    ("string", "#5de4c7");
    ("operator", "#add7ff");
    ("function", "#5de4c7");
    ("keyword", "#add7ff");
    ("literal", "#fffac2");
    ("falsy", "#f087bd") ].

(** The [.token] rules, in the order of the sheet. *)
Definition token_rules : list rule :=
  [ {| selectors := [Token "namespace"];
       property := "opacity"; value := Lit "0.7" |};
    {| selectors := [Token "comment"; Token "prolog"; Token "doctype";
                     Token "cdata"];
       property := "color"; value := Var "comment" |};
    {| selectors := [Token "punctuation"];
       property := "color"; value := Var "punctuation" |};
    {| selectors := [Token "property"; Token "tag"; Token "constant";
                     Token "symbol"; Token "deleted"];
       property := "color"; value := Var "property" |};
    {| selectors := [Token "boolean"; Token "number"];
       property := "color"; value := Var "boolean" |};
    {| selectors := [Token "selector"; Token "attr-value"; Token "string";
                     Token "char"; Token "builtin"; Token "inserted"];
       property := "color"; value := Var "string" |};
    {| selectors := [Token "attr-name"; Token "operator"; Token "entity";
                     Token "url"; TokenIn "language-css" "string";
                     TokenIn "style" "string"; Token "variable"];
       property := "color"; value := Var "operator" |};
    {| selectors := [Token "atrule"; Token "function"; Token "class-name"];
       property := "color"; value := Var "function" |};
    {| selectors := [Token "keyword"];
       property := "color"; value := Var "keyword" |};
    {| selectors := [Token "regex"; Token "important"];
       property := "color"; value := Var "literal" |};
    {| selectors := [Token "deleted"];
       property := "color"; value := Var "falsy" |};
    {| selectors := [Token "important"; Token "bold"];
       property := "font-weight"; value := Lit "bold" |};
    {| selectors := [Token "italic"];
       property := "font-style"; value := Lit "italic" |};
    {| selectors := [Token "entity"];
       property := "cursor"; value := Lit "help" |} ].

(** The value of a custom property. *)
Fixpoint lookup_var (vars : list (string * string)) (name : string)
    : option string :=
  match vars with
  | [] => None
  | (k, v) :: rest => if decide (k = name) then Some v else lookup_var rest name
  end.

(** Whether a selector matches an element with the given classes below
    ancestors with the given classes. *)
Definition matches (ancestors classes : list string) (s : selector) : bool :=
  match s with
  | Token c => bool_decide ("token" ∈ classes) && bool_decide (c ∈ classes)
  | TokenIn a c =>
      bool_decide (a ∈ ancestors)
        && bool_decide ("token" ∈ classes) && bool_decide (c ∈ classes)
  end.

(** Class selectors counted by a selector. *)
Definition specificity (s : selector) : nat :=
  match s with
  | Token _ => 2
  | TokenIn _ _ => 3
  end.

(** The declarations of [prop] that apply to the element, in the order of
    the sheet, each with the specificity of its most specific matching
    selector. *)
Definition applicable (rules : list rule) (ancestors classes : list string)
    (prop : string) : list (nat * css_value) :=
  omap (λ r,
          if decide (property r = prop)
          then match filter (λ s, matches ancestors classes s = true)
                       (selectors r) with
               | [] => None
               | ss => Some (max_list (specificity <$> ss), value r)
               end
          else None)
       rules.

(** The cascade: the most specific declaration wins, and of equally
    specific ones the last. *)
Definition cascade (rules : list rule) (ancestors classes : list string)
    (prop : string) : option css_value :=
  snd <$>
    foldl (λ best cand,
             match best with
             | Some b => if (cand.1 <? b.1)%nat then Some b else Some cand
             | None => Some cand
             end)
          None (applicable rules ancestors classes prop).

(** The colour the token rules give a token.  The custom properties are
    declared on [pre[class*='language-']] alone and inherited below it:
    for a token that is not inside such a [pre] a [var(--name)] has no
    value, and the rule gives the token no colour. *)
Definition token_color_at (inside_pre : bool) (ancestors classes : list string)
    : option string :=
  cascade token_rules ancestors classes "color" ≫=
    (λ v, match v with
          | Var name => if inside_pre then lookup_var palette name else None
          | Lit text => Some text
          end).

(** The colour of a token inside a code block, a
    [pre[class*='language-']]; [ancestors] are the classes of the
    elements the token is below. *)
Definition token_color (ancestors classes : list string) : option string :=
  token_color_at true ancestors classes.

Definition selector_class (s : selector) : string :=
  match s with Token c | TokenIn _ c => c end.

(** Every token class a rule names. *)
Definition named_classes : list string :=
  selector_class <$> (token_rules ≫= selectors).

End Theme.

(* ===================================================================== *)
(** ** Reserved names *)
(* ===================================================================== *)

Lemma lookup_strip_reserved (config : gmap string jsval) (k : string) :
  strip_reserved config !! k
    = if decide (k ∈ reserved_props) then None else config !! k.
Proof.
  unfold strip_reserved, reserved_props.
  destruct (decide (k = "key")) as [->|Hkey]; [by rewrite lookup_delete_eq|].
  rewrite lookup_delete_ne by done.
  destruct (decide (k = "ref")) as [->|Href]; [by rewrite lookup_delete_eq|].
  rewrite lookup_delete_ne by done.
  destruct (decide (k = "__self")) as [->|Hself];
    [by rewrite lookup_delete_eq|].
  rewrite lookup_delete_ne by done.
  destruct (decide (k = "__source")) as [->|Hsource];
    [by rewrite lookup_delete_eq|].
  rewrite lookup_delete_ne by done.
  rewrite decide_False; [done|].
  rewrite !elem_of_cons, elem_of_nil. by intros [?|[?|[?|[?|[]]]]].
Qed.

Lemma lookup_strip_reserved_ne (config : gmap string jsval) (k : string) :
  k ∉ reserved_props → strip_reserved config !! k = config !! k.
Proof. intros Hk. by rewrite lookup_strip_reserved, decide_False. Qed.

Lemma get_strip_reserved (config : gmap string jsval) (k : string) :
  k ∉ reserved_props → get (strip_reserved config) k = get config k.
Proof. intros Hk. unfold get. by rewrite lookup_strip_reserved_ne. Qed.

Lemma strip_reserved_idemp (config : gmap string jsval) :
  strip_reserved (strip_reserved config) = strip_reserved config.
Proof.
  apply map_eq. intros k. rewrite !lookup_strip_reserved.
  by destruct (decide (k ∈ reserved_props)).
Qed.

Lemma strip_reserved_insert (config : gmap string jsval) (k : string)
    (v : jsval) :
  k ∉ reserved_props →
  strip_reserved (<[k := v]> config) = <[k := v]> (strip_reserved config).
Proof.
  intros Hk. apply map_eq. intros j. rewrite lookup_strip_reserved.
  destruct (decide (j = k)) as [->|Hne].
  - by rewrite decide_False, !lookup_insert_eq.
  - by rewrite !lookup_insert_ne, lookup_strip_reserved.
Qed.

Lemma strip_no_reserved (props : gmap string jsval) :
  no_reserved props → strip_reserved props = props.
Proof.
  unfold no_reserved. rewrite Forall_forall. intros Hno.
  apply map_eq. intros k. rewrite lookup_strip_reserved.
  destruct (decide (k ∈ reserved_props)) as [Hk|]; [|done].
  symmetry. by apply Hno.
Qed.

Lemma key_no_reserved (props : gmap string jsval) :
  no_reserved props → key_of props = None.
Proof.
  unfold no_reserved. rewrite Forall_forall. intros Hno.
  unfold key_of. by rewrite (Hno "key") by compute_done.
Qed.

Lemma ref_no_reserved (props : gmap string jsval) :
  no_reserved props → ref_of props = VNull.
Proof.
  unfold no_reserved. rewrite Forall_forall. intros Hno.
  unfold ref_of. by rewrite (Hno "ref") by compute_done.
Qed.

(* ===================================================================== *)
(** ** Elements found in a tree *)
(* ===================================================================== *)

Lemma find_elem c ty key ref props :
  find c (VElem ty key ref props) =
    ((if decide (ty = Comp c) then [props] else [])
      ++ match props !! "children" with Some ch => find c ch | None => [] end)%list.
Proof.
  simpl. f_equal. rewrite lookup_fmap. by destruct (props !! "children").
Qed.

Lemma find_jsx_one c ty attrs child :
  find c (jsx ty attrs [child]) =
    ((if decide (ty = Comp c)
      then [<["children" := child]> (strip_reserved attrs)] else [])
      ++ find c child)%list.
Proof. unfold jsx. rewrite find_elem. by rewrite lookup_insert_eq. Qed.

Lemma find_jsx_many c ty attrs c1 c2 rest :
  find c (jsx ty attrs (c1 :: c2 :: rest)) =
    ((if decide (ty = Comp c)
      then [<["children" := VArr (c1 :: c2 :: rest)]> (strip_reserved attrs)]
      else [])
      ++ flat_map (find c) (c1 :: c2 :: rest))%list.
Proof. unfold jsx. rewrite find_elem. by rewrite lookup_insert_eq. Qed.

(* ===================================================================== *)
(** ** ToString *)
(* ===================================================================== *)

Section to_string_facts.
Context `{ExoticObjects}.

Lemma join_items_raises (item : jsval → completion string)
    (raises : jsval → bool) (items : list jsval) :
  raises VUndefined = false → raises VNull = false →
  Forall (λ x, raises x = true ↔ ∃ err, item x = Throw err) items →
  existsb raises items = true ↔ ∃ err, join_items item items = Throw err.
Proof.
  intros Hu Hn. induction 1 as [|x rest Hx _ IH].
  - split; [done|by intros [? ?]].
  - cbn [existsb join_items]. rewrite orb_true_iff, Hx, IH.
    fold (join_items item). split.
    + intros [[err Herr]|[err Herr]].
      * destruct x; try (rewrite Herr; by eexists).
        -- apply proj2 in Hx. rewrite Hu in Hx.
           by discriminate Hx; eexists.
        -- apply proj2 in Hx. rewrite Hn in Hx.
           by discriminate Hx; eexists.
      * rewrite Herr.
        destruct (match x with
                  | VUndefined | VNull => Normal ""
                  | _ => item x
                  end); by eexists.
    + intros [err Herr].
      destruct (join_items item rest) as [others|err'] eqn:Hrest;
        [|right; by eexists].
      left.
      destruct x; try (destruct (item _); [done|by eexists]); done.
Qed.

(** ToString raises on the values [to_string_raises] names, and on no
    other. *)
Lemma to_string_raises_spec (v : jsval) :
  to_string_raises v = true ↔ ∃ err, to_string v = Throw err.
Proof.
  revert v. fix IH 1.
  intros v. destruct v as [| |b|z|s|fields|items|ty key ref props].
  1-5,8: (split; [done|]; try destruct b; by intros [? ?]).
  - cbn [to_string to_string_raises]. rewrite bool_decide_eq_true.
    destruct (fields !! "toString") as [m|].
    + split; [by eexists|by eexists].
    + split; [by intros [? ?]|by intros [? ?]].
  - cbn [to_string to_string_raises].
    rewrite (join_items_raises to_string to_string_raises items);
      [|done|done|].
    + destruct (join_items to_string items) as [parts|err'];
        cbn [mbind completion_bind]; split; intros [err Herr];
        try discriminate Herr; by exists err'.
    + induction items as [|x rest IHrest]; constructor; [apply IH|done].
Qed.

Lemma to_string_returns (v : jsval) :
  to_string_raises v = false → ∃ s, to_string v = Normal s.
Proof.
  intros Hv. destruct (to_string v) as [s|err] eqn:Hs; [by eexists|].
  assert (to_string_raises v = true) as Ht
    by (apply to_string_raises_spec; by eexists).
  congruence.
Qed.
End to_string_facts.

(* ===================================================================== *)
(** ** PostPreview *)
(* ===================================================================== *)

(** Attribute lists of the sources hold no reserved name. *)
Ltac solve_no_reserved :=
  unfold no_reserved, reserved_props;
  repeat (apply Forall_cons_2; [by simplify_map_eq|]); apply Forall_nil_2.

Section post_preview_facts.
Context `{ExoticObjects}.

(** What PostPreview returns once the slug has its string. *)
Lemma PostPreview_find (props : gmap string jsval) (c : comp) (s : string) :
  to_string (get props "slug") = Normal s →
  ∃ e link, PostPreview (VObj props) = Normal e ∧
    link !! "as" = Some (VStr ("/posts/" ++ s)) ∧
    find c e =
      ((if decide (Comp cLink = Comp c) then [link] else [])
        ++ find c (get props "title")
        ++ (if decide (Comp cDateFormatter = Comp c)
            then [{[ "dateString" := get props "date" ]}] else [])
        ++ find c (get props "excerpt"))%list.
Proof.
  intros Hs. unfold PostPreview.
  cbn [destructure own_props mbind completion_bind]. rewrite Hs.
  eexists _, _. split; [reflexivity|]. split; last first.
  { rewrite find_jsx_many. cbn [flat_map].
    rewrite !find_jsx_one.
    rewrite !(decide_False (P := Host _ = _)) by done.
    cbn [app]. rewrite app_nil_r, <- !app_assoc. do 2 f_equal.
    unfold jsx. rewrite find_elem.
    rewrite (strip_no_reserved {[ "dateString" := _ ]}) by solve_no_reserved.
    rewrite lookup_singleton_ne by done.
    by rewrite app_nil_r. }
  rewrite lookup_insert_ne by done.
  rewrite lookup_strip_reserved_ne by compute_done.
  by simplify_map_eq.
Qed.

(** PostPreview raises where its parameter pattern or the string of the
    slug does. *)
Lemma PostPreview_raises (props : gmap string jsval) (err : js_error) :
  to_string (get props "slug") = Throw err →
  PostPreview (VObj props) = Throw err.
Proof.
  intros Hs. unfold PostPreview.
  cbn [destructure own_props mbind completion_bind]. by rewrite Hs.
Qed.

(** C1.  Given a props object whose [slug] is the string [s], PostPreview
    returns a tree with exactly one link, and its target path is [/posts/]
    followed by [s].  The title and the excerpt are what the caller hands
    in: they are taken to bring no link of their own, as the text fields
    of a Post do not. *)
Theorem PostPreview_links_to_slug (props : gmap string jsval) (s : string) :
props !! "slug" = Some (VStr s) →
link_targets (get props "title") = [] →
link_targets (get props "excerpt") = [] →
∃ e, PostPreview (VObj props) = Normal e ∧
     link_targets e = [VStr ("/posts/" ++ s)].
Proof.
intros Hslug Htitle Hexcerpt.
assert (to_string (get props "slug") = Normal s) as Hs
  by (unfold get; by rewrite Hslug).
destruct (PostPreview_find props cLink s Hs) as (e & link & He & Has & Hfind).
exists e. split; [done|].
unfold link_targets in *. rewrite Hfind.
rewrite decide_True, decide_False by done.
rewrite !fmap_app, Htitle, Hexcerpt. cbn.
unfold get at 1. by rewrite Has.
Qed.

(** C10.  Two props objects that read the same under [title], [date],
    [excerpt] and [slug] get the same result from PostPreview, whatever
    their [author] is: the same error where the slug has no string, and
    else the same tree, which has no Avatar element besides those the
    title and the excerpt may bring. *)
Theorem PostPreview_ignores_author (props1 props2 : gmap string jsval) :
  get props1 "title" = get props2 "title" →
  get props1 "date" = get props2 "date" →
  get props1 "excerpt" = get props2 "excerpt" →
  get props1 "slug" = get props2 "slug" →
  PostPreview (VObj props1) = PostPreview (VObj props2) ∧
  match to_string (get props1 "slug") with
  | Throw err => PostPreview (VObj props1) = Throw err
  | Normal _ =>
      ∃ e, PostPreview (VObj props1) = Normal e ∧
           find cAvatar e =
             (find cAvatar (get props1 "title")
                ++ find cAvatar (get props1 "excerpt"))%list
  end.
Proof.
  intros Ht Hd He Hs. split.
  - unfold PostPreview. cbn [destructure own_props mbind completion_bind].
    by rewrite Ht, Hd, He, Hs.
  - destruct (to_string (get props1 "slug")) as [s|err] eqn:Hslug.
    + destruct (PostPreview_find props1 cAvatar s Hslug)
        as (e & link & Hr & _ & Hfind).
      exists e. split; [done|]. rewrite Hfind.
      by rewrite !decide_False by done.
    + by apply PostPreview_raises.
Qed.

Lemma PostPreview_raises_obj (props : gmap string jsval) :
  (∃ err, PostPreview (VObj props) = Throw err) ↔
  to_string_raises (get props "slug") = true.
Proof.
  rewrite to_string_raises_spec. unfold PostPreview.
  cbn [destructure own_props mbind completion_bind].
  destruct (to_string (get props "slug")) as [text|err'];
    cbn [mbind completion_bind];
    split; intros [err Herr]; try discriminate Herr; by exists err'.
Qed.

(** X12.  PostPreview raises exactly when it is called on [undefined] or
    [null], which its parameter pattern cannot destructure, or the slug
    has no string: it is an object with a [toString] of its own, or an
    array that holds one. *)
Theorem PostPreview_raises_iff (v : jsval) :
  (∃ err, PostPreview v = Throw err) ↔
  (v = VUndefined ∨ v = VNull
   ∨ to_string_raises (get (own_props v) "slug") = true).
Proof.
  rewrite to_string_raises_spec.
  destruct v as [| |b|z|s|fields|items|ty key ref props];
    try (split; [by left|by eexists]);
    try (split; [by (right; left)|by eexists]).
  all: unfold PostPreview;
    cbn [destructure mbind completion_bind];
    destruct (to_string (get _ "slug")) as [text|err'];
    cbn [mbind completion_bind];
    (split;
     [ intros [err Herr]; try discriminate Herr; right; right; by exists err'
     | intros [Hv|[Hv|[err Herr]]]; try discriminate; by exists err' ]).
Qed.

(** X14.  Previews of two posts whose slugs are different strings link to
    different target paths. *)
Theorem PostPreview_distinct_slugs (props1 props2 : gmap string jsval)
    (s1 s2 : string) :
  props1 !! "slug" = Some (VStr s1) →
  props2 !! "slug" = Some (VStr s2) →
  s1 ≠ s2 →
  ∃ e1 e2 t1 t2,
    PostPreview (VObj props1) = Normal e1 ∧
    PostPreview (VObj props2) = Normal e2 ∧
    head (link_targets e1) = Some t1 ∧
    head (link_targets e2) = Some t2 ∧
    t1 ≠ t2.
Proof.
  intros H1 H2 Hne.
  assert (to_string (get props1 "slug") = Normal s1) as Hs1
    by (unfold get; by rewrite H1).
  assert (to_string (get props2 "slug") = Normal s2) as Hs2
    by (unfold get; by rewrite H2).
  destruct (PostPreview_find props1 cLink s1 Hs1)
    as (e1 & l1 & Hr1 & Has1 & Hf1).
  destruct (PostPreview_find props2 cLink s2 Hs2)
    as (e2 & l2 & Hr2 & Has2 & Hf2).
  exists e1, e2. eexists _, _. split; [exact Hr1|]. split; [exact Hr2|].
  unfold link_targets. rewrite Hf1, Hf2.
  rewrite !decide_True by done. cbn [app fmap list_fmap head].
  split; [reflexivity|]. split; [reflexivity|].
  unfold get. rewrite Has1, Has2.
  cbn. intros [= Heq]. done.
Qed.
End post_preview_facts.

(* ===================================================================== *)
(** ** Rendering a preview *)
(* ===================================================================== *)

Section preview_rendering.
Context `{ExoticObjects}.

Variable render_imported :
  comp → gmap string jsval → list markup → completion (list markup).

(** Modelled from the spec: [Link] of next/link, which is not among the
    sources.  The preview block links to a path (section 4.2): a link is
    an anchor to its [as] around the markup of its children. *)
Hypothesis Link_contract : ∀ props content,
  ∃ attrs, render_imported cLink props content
             = Normal [MTag "a" attrs content] ∧
           attrs !! "href" = Some (get props "as").

(** Modelled from the spec: [DateFormatter] of
    [../components/date-formatter], which is not among the sources.  A
    presentational component has no error conditions, and a missing
    attribute renders blank (section 4.2). *)
Hypothesis DateFormatter_contract : ∀ props,
  ∃ date_markup,
    render_imported cDateFormatter props [] = Normal date_markup ∧
    (missing props "dateString" → blank date_markup).

Lemma render_source_component (n : nat) (c : comp) (key : option jsval)
    (ref : jsval) (props : gmap string jsval) (e : jsval) :
  call c (VObj (strip_reserved props)) = Some (Normal e) →
  render render_imported (S n) (VElem (Comp c) key ref props)
    = render render_imported n e.
Proof. intros Hcall. cbn [render]. by rewrite Hcall. Qed.

Lemma render_imported_component (n : nat) (c : comp) (key : option jsval)
    (ref : jsval) (props : gmap string jsval) (m : list markup) :
  call c (VObj (strip_reserved props)) = None →
  render render_imported n (get props "children") = Some (Normal m) →
  render render_imported (S n) (VElem (Comp c) key ref props)
    = Some (render_imported c (delete "children" (strip_reserved props)) m).
Proof. intros Hcall Hm. cbn [render]. by rewrite Hcall, Hm. Qed.

Lemma render_text (v : jsval) :
  text_or_missing v →
  ∃ m, (∀ n, render render_imported (S n) v = Some (Normal m)) ∧
       (v = VUndefined → m = []) ∧ (∀ s, v = VStr s → m = [MText s]).
Proof.
  intros [->|[s ->]]; eexists; (split; [reflexivity|]); split; congruence.
Qed.

Lemma render_jsx_host_one (n : nat) (tag : string)
    (attrs : gmap string jsval) (child : jsval) (m : list markup) :
  no_reserved attrs → attrs !! "children" = None →
  render render_imported n child = Some (Normal m) →
  render render_imported (S n) (jsx (Host tag) attrs [child])
    = Some (Normal [MTag tag attrs m]).
Proof.
  intros Hno Hch Hm. unfold jsx. cbn [render]. unfold get.
  rewrite lookup_insert_eq. cbn [default from_option id]. rewrite Hm.
  rewrite strip_no_reserved by done. by rewrite delete_insert_id.
Qed.

Lemma render_jsx_host_three (n : nat) (tag : string)
    (attrs : gmap string jsval) (c1 c2 c3 : jsval) (m1 m2 m3 : list markup) :
  no_reserved attrs → attrs !! "children" = None →
  render render_imported n c1 = Some (Normal m1) →
  render render_imported n c2 = Some (Normal m2) →
  render render_imported n c3 = Some (Normal m3) →
  render render_imported (2 + n) (jsx (Host tag) attrs [c1; c2; c3])
    = Some (Normal [MTag tag attrs (m1 ++ m2 ++ m3)]).
Proof.
  intros Hno Hch H1 H2 H3. unfold jsx. cbn [Nat.add render]. unfold get.
  rewrite lookup_insert_eq. cbn [default from_option id].
  rewrite H1, H2, H3, app_nil_r.
  rewrite strip_no_reserved by done. by rewrite delete_insert_id.
Qed.

Lemma render_Link (attrs : gmap string jsval) (child : jsval)
    (m : list markup) :
  no_reserved attrs → attrs !! "children" = None →
  (∀ n, render render_imported (S n) child = Some (Normal m)) →
  ∃ link_attrs,
    (∀ n, render render_imported (2 + n) (jsx (Comp cLink) attrs [child])
          = Some (Normal [MTag "a" link_attrs m])) ∧
    link_attrs !! "href" = Some (get attrs "as").
Proof.
  intros Hno Hch Hm.
  destruct (Link_contract attrs m) as (link_attrs & Hlink & Hhref).
  exists link_attrs. split; [|done]. intros n.
  unfold jsx.
  rewrite (render_imported_component (S n) _ _ _ _ m); [|done|].
  - rewrite strip_reserved_insert by compute_done.
    rewrite strip_reserved_idemp, strip_no_reserved by done.
    by rewrite delete_insert_id, Hlink.
  - unfold get. rewrite lookup_insert_eq. apply Hm.
Qed.

Lemma render_DateFormatter (date : jsval) :
  ∃ date_markup,
    (∀ n, render render_imported (2 + n)
            (jsx (Comp cDateFormatter) {[ "dateString" := date ]} [])
          = Some (Normal date_markup)) ∧
    (date = VUndefined → blank date_markup).
Proof.
  destruct (DateFormatter_contract {[ "dateString" := date ]})
    as (date_markup & Hdate & Hblank).
  exists date_markup. split.
  - intros n. unfold jsx.
    rewrite (strip_no_reserved {[ "dateString" := date ]})
      by solve_no_reserved.
    rewrite (render_imported_component (S n) _ _ _ _ []); [|done|].
    + rewrite (strip_no_reserved {[ "dateString" := date ]})
        by solve_no_reserved.
      by rewrite delete_id, Hdate.
    + unfold get. by rewrite lookup_singleton_ne.
  - intros ->. by apply Hblank.
Qed.

End preview_rendering.

Lemma PostPreview_sample_link :
  sample_props !! "slug" = Some (VStr "sample") ∧
  ∃ e, @PostPreview example_host (VObj sample_props) = Normal e ∧
       link_targets e = [VStr "/posts/sample"].
Proof.
  split; [reflexivity|].
  apply (@PostPreview_links_to_slug example_host sample_props "sample");
    reflexivity.
Defined.



Lemma PostPreview_author_example :
  authored_props Content.hao ≠ authored_props VNull ∧
  @PostPreview example_host (VObj (authored_props Content.hao))
    = @PostPreview example_host (VObj (authored_props VNull)).
Proof.
  split.
  - intros Heq. apply (f_equal (λ m, m !! "author")) in Heq.
    vm_compute in Heq. discriminate.
  - apply (@PostPreview_ignores_author example_host
             (authored_props Content.hao) (authored_props VNull));
      reflexivity.
Defined.

(* ===================================================================== *)
(** ** The Hike components *)
(* ===================================================================== *)

Section hike_facts.
Context `{ExoticObjects}.

(** The element Hike returns: [key] and [ref] as the caller's, beside the
    props; in the props, [editorProps] and [config] as Hike merges them,
    every other prop as the caller passed it, and [classes] and [preset]
    of the module where the caller passed none. *)
Lemma Hike_element (props : gmap string jsval) :
  ∃ eprops,
    Hike (VObj props)
      = Normal (VElem (Comp cHikeSteps) (key_of props) (ref_of props)
                  eprops) ∧
    eprops !! "editorProps"
      = Some (VObj (assign editor_defaults
                      (own_props (get props "editorProps")))) ∧
    eprops !! "config"
      = Some (VObj (assign stated_defaults (own_props (get props "config")))) ∧
    ∀ k, k ≠ "config" → k ≠ "editorProps" →
      eprops !! k = if decide (k ∈ reserved_props) then None
                    else match props !! k with
                         | Some v => Some v
                         | None => overridable_defaults !! k
                         end.
Proof.
  set (config :=
         <["editorProps" :=
             VObj (assign editor_defaults
                     (own_props (get (delete "config" props) "editorProps")))]>
           (assign
              {[ "classes" := VObj classes;
                 "config" :=
                   VObj (assign stated_defaults
                           (own_props (get props "config")));
                 "preset" := VObj preset ]}
              (delete "config" props))).
  assert (∀ k, k ≠ "config" → k ≠ "editorProps" →
            config !! k = match props !! k with
                          | Some v => Some v
                          | None => overridable_defaults !! k
                          end) as Hother.
  { intros k Hc He. unfold config. rewrite lookup_insert_ne by done.
    unfold assign at 1.
    rewrite lookup_union, lookup_delete_ne by done.
    destruct (props !! k) as [v|] eqn:Hk.
    + apply union_Some_l.
    + rewrite (left_id_L None _). unfold overridable_defaults.
      destruct (decide (k = "classes")) as [->|]; [done|].
      rewrite !(lookup_insert_ne _ "classes") by done.
      by rewrite lookup_insert_ne. }
  assert (key_of config = key_of props) as Hkey.
  { unfold key_of. rewrite Hother by done.
    by destruct (props !! "key"). }
  assert (ref_of config = ref_of props) as Href.
  { unfold ref_of. rewrite Hother by done.
    by destruct (props !! "ref"). }
  exists (strip_reserved config). split; [|split; [|split]].
  - change (Hike (VObj props))
      with (Normal (jsx (Comp cHikeSteps) config [])).
    unfold jsx. by rewrite Hkey, Href.
  - rewrite lookup_strip_reserved_ne by compute_done. unfold config.
    rewrite lookup_insert_eq. do 3 f_equal. unfold get.
    by rewrite lookup_delete_ne.
  - rewrite lookup_strip_reserved_ne by compute_done. unfold config.
    rewrite lookup_insert_ne by done. unfold assign at 1.
    rewrite lookup_union_r by apply lookup_delete_eq.
    by simplify_map_eq.
  - intros k Hc He. rewrite lookup_strip_reserved.
    destruct (decide (k ∈ reserved_props)); [done|]. by apply Hother.
Qed.

(** What Hike hands to HikeSteps under [config]. *)
Lemma Hike_delegates (props : gmap string jsval) :
  ∃ e, Hike (VObj props) = Normal e ∧
       elem_type e = Some (Comp cHikeSteps) ∧
       delegated_config e
         = Some (assign stated_defaults (own_props (get props "config"))).
Proof.
  destruct (Hike_element props) as (eprops & He & _ & Hcfg & _).
  eexists. split; [exact He|]. split; [reflexivity|].
  cbn [delegated_config]. by rewrite Hcfg.
Qed.

(** Rendering the element a wrapper returns: React calls Hike on the
    props of the element, which hold no reserved name. *)
Lemma HikeWithPreview_step (v : jsval) :
  HikeWithPreview v ≫= instantiate
    = Hike (VObj (strip_reserved (own_props v))).
Proof.
  unfold HikeWithPreview, jsx.
  cbn [mbind completion_bind instantiate call].
  by rewrite strip_reserved_idemp.
Qed.

Lemma HikeWithNoPreview_step (v : jsval) :
  HikeWithNoPreview v ≫= instantiate
    = Hike (VObj (strip_reserved
                    (assign
                       {[ "config" := VObj {[ "noPreview" := VBool true ]} ]}
                       (own_props v)))).
Proof.
  unfold HikeWithNoPreview, jsx.
  cbn [mbind completion_bind instantiate call].
  by rewrite strip_reserved_idemp.
Qed.

(** An element of a component whose body is not in the sources is where
    rendering at the root stops. *)
Lemma render_root_external n ty key ref props :
  (∀ c, ty = Comp c → call c (VObj (strip_reserved props)) = None) →
  render_root n (VElem ty key ref props) = Normal (VElem ty key ref props).
Proof.
  intros Hext. induction n as [|n IH]; [done|].
  cbn [render_root]. destruct ty as [tag|c]; cbn [instantiate]; [exact IH|].
  rewrite (Hext c eq_refl). exact IH.
Qed.

Lemma render_root_HikeSteps n e :
  elem_type e = Some (Comp cHikeSteps) → render_root n e = Normal e.
Proof.
  destruct e as [| | | | | | |ty key ref props]; try done. intros [= ->].
  apply render_root_external. by intros c [= <-].
Qed.

(** C4.  Given a props object whose [config] is the object [c], Hike
    returns a HikeSteps element whose [config] is the stated defaults
    [{noPreview: false, defaultFileName: 'App.js'}] overridden key by key
    by [c]; a [c] without [noPreview] leaves it [false], a [c] without
    [defaultFileName] leaves it ['App.js']. *)
Theorem Hike_config_defaults (props c : gmap string jsval) :
  props !! "config" = Some (VObj c) →
  ∃ e cfg, Hike (VObj props) = Normal e ∧
    elem_type e = Some (Comp cHikeSteps) ∧
    delegated_config e = Some cfg ∧
    (∀ k, cfg !! k = match c !! k with
                     | Some v => Some v
                     | None => stated_defaults !! k
                     end) ∧
    (c !! "noPreview" = None → cfg !! "noPreview" = Some (VBool false)) ∧
    (c !! "defaultFileName" = None →
       cfg !! "defaultFileName" = Some (VStr "App.js")).
Proof.
  intros Hc. destruct (Hike_delegates props) as (e & He & Hty & Hcfg).
  unfold get in Hcfg. rewrite Hc in Hcfg. cbn in Hcfg.
  exists e, (assign stated_defaults c). repeat split; try done.
  - intros k. unfold assign. rewrite lookup_union.
    by destruct (c !! k), (stated_defaults !! k).
  - intros Hk. unfold assign. by rewrite lookup_union_r.
  - intros Hk. unfold assign. by rewrite lookup_union_r.
Qed.

(** C5, as amended.  Given a props object with no [config] of its own,
    HikeWithNoPreview renders to a HikeSteps element whose [config] has
    [noPreview] set to [true]. *)
Theorem HikeWithNoPreview_without_config (props : gmap string jsval) :
  props !! "config" = None →
  ∃ e cfg, HikeWithNoPreview (VObj props) ≫= instantiate = Normal e ∧
    elem_type e = Some (Comp cHikeSteps) ∧
    delegated_config e = Some cfg ∧
    cfg !! "noPreview" = Some (VBool true).
Proof.
  intros Hc. rewrite HikeWithNoPreview_step. cbn [own_props].
  destruct (Hike_delegates
              (strip_reserved
                 (assign
                    {[ "config" := VObj {[ "noPreview" := VBool true ]} ]}
                    props)))
    as (e & He & Hty & Hcfg).
  exists e. eexists. split; [exact He|]. split; [done|]. split; [exact Hcfg|].
  rewrite get_strip_reserved by compute_done.
  unfold get, assign.
  rewrite (lookup_union_r props) by done.
  rewrite lookup_singleton_eq. cbn [default from_option id own_props].
  by rewrite (lookup_union_Some_l _ _ _ (VBool true)).
Qed.

(** X7.  A [config] the caller passes, whatever its value, takes the
    place of [{noPreview: true}]: HikeWithNoPreview then renders exactly
    as Hike does on the props React hands on, the caller's props without
    the reserved names. *)
Theorem HikeWithNoPreview_with_config (props : gmap string jsval) (v : jsval) :
  props !! "config" = Some v →
  HikeWithNoPreview (VObj props) ≫= instantiate
    = Hike (VObj (strip_reserved props)).
Proof.
  intros Hc. rewrite HikeWithNoPreview_step. cbn [own_props].
  do 3 f_equal. unfold assign. apply map_eq. intros k.
  rewrite lookup_union. destruct (decide (k = "config")) as [->|].
  - by rewrite Hc.
  - rewrite lookup_singleton_ne by done. by destruct (props !! k).
Qed.

(** C9.  On every props object a component can get, one that holds no
    reserved name, the element HikeWithPreview returns is a Hike element
    with these very props, and rendering it gives the element Hike returns
    on them; so [<HikeWithPreview/>] and [<Hike/>] with the same props
    render to the same HikeSteps element. *)
Theorem HikeWithPreview_is_Hike (props : gmap string jsval) :
  no_reserved props →
  ∃ e, Hike (VObj props) = Normal e ∧
       elem_type e = Some (Comp cHikeSteps) ∧
       HikeWithPreview (VObj props)
         = Normal (VElem (Comp cHike) None VNull props) ∧
       HikeWithPreview (VObj props) ≫= instantiate = Normal e ∧
       ∀ n key ref,
         render_root (2 + n) (VElem (Comp cHikeWithPreview) key ref props)
           = Normal e ∧
         render_root (1 + n) (VElem (Comp cHike) key ref props) = Normal e.
Proof.
  intros Hno. destruct (Hike_delegates props) as (e & He & Hty & _).
  assert (HikeWithPreview (VObj props)
            = Normal (VElem (Comp cHike) None VNull props)) as Hwrap.
  { unfold HikeWithPreview, jsx. cbn [own_props].
    rewrite strip_no_reserved by done.
    by rewrite key_no_reserved, ref_no_reserved. }
  exists e. split; [done|]. split; [done|]. split; [done|].
  split.
  { rewrite HikeWithPreview_step. cbn [own_props].
    by rewrite strip_no_reserved. }
  intros n key ref.
  assert (∀ key' ref',
            render_root (1 + n) (VElem (Comp cHike) key' ref' props)
              = Normal e) as Hr.
  { intros key' ref'. cbn [Nat.add render_root instantiate call].
    rewrite strip_no_reserved by done. rewrite He.
    cbn [mbind completion_bind]. by apply render_root_HikeSteps. }
  split; [|apply Hr].
  change (render_root (2 + n) (VElem (Comp cHikeWithPreview) key ref props))
    with (HikeWithPreview (VObj (strip_reserved props))
            ≫= render_root (1 + n)).
  rewrite strip_no_reserved by done. rewrite Hwrap.
  cbn [mbind completion_bind]. apply Hr.
Qed.
End hike_facts.

Lemma Hike_file_name_config :
  config_props !! "config" = Some (VObj file_name_config) ∧
  ∃ e cfg, @Hike example_host (VObj config_props) = Normal e ∧
    delegated_config e = Some cfg ∧
    cfg !! "noPreview" = Some (VBool false) ∧
    cfg !! "defaultFileName" = Some (VStr "index.js").
Proof.
  split; [reflexivity|].
  destruct (@Hike_config_defaults example_host config_props file_name_config
              eq_refl) as (e & cfg & He & _ & Hcfg & Hall & Hnp & _).
  exists e, cfg. split; [exact He|]. split; [exact Hcfg|].
  split; [exact (Hnp eq_refl)|]. by rewrite Hall.
Defined.

(** C5, the counterexample: a caller that passes [config] with only a
    file name gets [noPreview] [false]. *)
Lemma HikeWithNoPreview_config_overridden :
  config_props !! "config" = Some (VObj file_name_config) ∧
  ∀ X : ExoticObjects, ∃ e cfg,
    @HikeWithNoPreview X (VObj config_props) ≫= @instantiate X = Normal e ∧
    delegated_config e = Some cfg ∧
    cfg !! "noPreview" = Some (VBool false).
Proof.
  split; [reflexivity|]. intros X. eexists _, _.
  split; [reflexivity|]. split; reflexivity.
Qed.

Lemma HikeWithNoPreview_children_only :
  children_props !! "config" = None ∧
  ∃ e cfg,
    @HikeWithNoPreview example_host (VObj children_props)
      ≫= @instantiate example_host = Normal e ∧
    delegated_config e = Some cfg ∧
    cfg !! "noPreview" = Some (VBool true).
Proof.
  assert (children_props !! "config" = None) as Hc by reflexivity.
  split; [exact Hc|].
  destruct (@HikeWithNoPreview_without_config example_host children_props Hc)
    as (e & cfg & He & _ & Hcfg & Hnp).
  by exists e, cfg.
Defined.

Lemma HikeWithPreview_children :
  no_reserved children_props ∧
  @HikeWithPreview example_host (VObj children_props)
    ≫= @instantiate example_host
  = @Hike example_host (VObj children_props).
Proof.
  assert (no_reserved children_props) as Hno
    by (repeat constructor).
  split; [exact Hno|].
  destruct (@HikeWithPreview_is_Hike example_host children_props Hno)
    as (e & He & _ & _ & Hr & _).
  by rewrite He, Hr.
Defined.

(** Where the caller's object has a [key], the two differ: the element
    Hike returns carries the key, and the element HikeWithPreview renders
    to does not, as React has kept the key at the Hike element. *)
Example HikeWithPreview_keyed :
  (@HikeWithPreview example_host (VObj keyed_props)
     ≫= @instantiate example_host) ≫= (λ e, Normal (elem_key e))
    = Normal None ∧
  @Hike example_host (VObj keyed_props) ≫= (λ e, Normal (elem_key e))
    = Normal (Some (VStr "k")).
Proof. split; reflexivity. Qed.

(* ===================================================================== *)
(** ** The component registry *)
(* ===================================================================== *)

Lemma components_keys : dom components = list_to_set stated_keys.
Proof.
  unfold components, stated_keys.
  rewrite !dom_insert_L, dom_singleton_L. cbn [list_to_set].
  by rewrite (right_id_L ∅ (∪)).
Qed.

Lemma components_own (tag : string) :
  tag ∉ stated_keys → components !! tag = None.
Proof.
  intros Hnot. apply not_elem_of_dom. rewrite components_keys.
  by rewrite elem_of_list_to_set.
Qed.




(* ===================================================================== *)
(** ** The content loader and the content set *)
(* ===================================================================== *)

Lemma text_field_None fm k :
  fm !! k = None → Content.text_field fm k = None.
Proof. unfold Content.text_field. by intros ->. Qed.

(** A front matter with the three texts, the title not empty, loads. *)
Lemma load_complete (f : Content.file) (t e d : string) :
  Content.front_matter f !! "title" = Some (VStr t) → t ≠ "" →
  Content.front_matter f !! "excerpt" = Some (VStr e) →
  Content.front_matter f !! "date" = Some (VStr d) →
  ∃ post, Content.load f = inr post ∧
    Content.title post = t ∧ Content.excerpt post = e ∧
    Content.date post = d ∧
    Content.slug post = Content.slug_of_path (Content.path f) ∧
    Content.body post = Content.text f.
Proof.
  intros Ht Hne He Hd. unfold Content.load, Content.text_field.
  rewrite Ht, He, Hd. destruct t; [done|]. by eexists.
Qed.

Lemma valid_entry_intro p fm t e d :
  fm !! "title" = Some (VStr t) → t ≠ "" →
  fm !! "excerpt" = Some (VStr e) → e ≠ "" →
  fm !! "date" = Some (VStr d) → d ≠ "" →
  valid_entry (p, fm).
Proof.
  intros Ht Hnt He Hne Hd Hnd. exists t, e, d. repeat split; try done.
  intros md.
  destruct (load_complete
              {| Content.path := p; Content.front_matter := fm;
                 Content.text := md |} t e d)
    as (post & Hl & ? & ? & ? & _); try done.
  by exists post.
Qed.

(** C2.  A content file whose front matter lacks a required field (title,
    excerpt or date) does not load: the loader answers a validation error
    that carries the path of the file and names a required field, and no
    Post. *)
Theorem load_missing_required_field (f : Content.file) (k : string) :
  k ∈ Content.required_fields →
  Content.front_matter f !! k = None →
  ∃ field,
    Content.load f = inl (Content.ValidationError (Content.path f) field) ∧
    field ∈ Content.required_fields ∧
    ∀ post, Content.load f ≠ inr post.
Proof.
  intros Hk Hnone. apply text_field_None in Hnone.
  assert (∃ field,
            Content.load f
              = inl (Content.ValidationError (Content.path f) field)
            ∧ field ∈ Content.required_fields) as (field & Hload & Hin).
  { unfold Content.load, Content.required_fields in *.
    destruct (Content.text_field (Content.front_matter f) "title")
      as [[|a t]|] eqn:Ht.
    - exists "title". split; [done|]. apply list_elem_of_here.
    - destruct (Content.text_field (Content.front_matter f) "excerpt")
        as [e|] eqn:He.
      + destruct (Content.text_field (Content.front_matter f) "date")
          as [d|] eqn:Hd.
        * exfalso. rewrite !elem_of_cons, elem_of_nil in Hk.
          destruct Hk as [->|[->|[->|[]]]]; congruence.
        * exists "date". split; [done|].
          do 2 apply list_elem_of_further. apply list_elem_of_here.
      + exists "excerpt". split; [done|].
        apply list_elem_of_further, list_elem_of_here.
    - exists "title". split; [done|]. apply list_elem_of_here. }
  exists field. split; [done|]. split; [done|].
  intros post. by rewrite Hload.
Qed.

Lemma load_no_date_file :
  ("date" ∈ Content.required_fields) ∧
  Content.front_matter no_date_file !! "date" = None ∧
  ∃ field,
    Content.load no_date_file
      = inl (Content.ValidationError "src/posts/no-date.md" field).
Proof.
  assert ("date" ∈ Content.required_fields) as Hin by compute_done.
  assert (Content.front_matter no_date_file !! "date" = None) as Hnone
    by reflexivity.
  split; [exact Hin|]. split; [exact Hnone|].
  destruct (load_missing_required_field no_date_file "date" Hin Hnone)
    as (field & Hload & _).
  by exists field.
Defined.

(** C8.  Every entry of the content set has, in its front matter, a title
    and an excerpt that are not empty and a date, and loads into a Post
    that carries them; and a front matter whose title is the empty string
    is refused, with an error on that file. *)
Theorem content_set_required_fields :
  Forall valid_entry Content.content_set ∧
  ∀ f, Content.front_matter f !! "title" = Some (VStr "") →
       ∃ e, Content.load f = inl e ∧ Content.error_path e = Content.path f.
Proof.
  split.
  - unfold Content.content_set.
    repeat apply Forall_cons_2; [..|apply Forall_nil_2].
    all: eapply valid_entry_intro;
      [vm_compute; reflexivity|discriminate
      |vm_compute; reflexivity|discriminate
      |vm_compute; reflexivity|discriminate].
  - intros f Ht. unfold Content.load, Content.text_field. rewrite Ht.
    by eexists.
Qed.

(* ===================================================================== *)
(** ** Runs on concrete inputs *)
(* ===================================================================== *)

Example to_string_array :
  @to_string example_host (VArr [VNum 1; VNull; VArr [VStr "a"; VBool true]])
    = Normal "1,,a,true".
Proof. reflexivity. Qed.

(** An object with a [toString] of its own has no string, and neither
    has an array that holds one. *)
Example to_string_unprintable :
  ∀ X : ExoticObjects,
    (∃ err, @to_string X unprintable = Throw err) ∧
    (∃ err, @to_string X (VArr [VStr "a"; unprintable]) = Throw err) ∧
    @to_string X (VObj ∅) = Normal "[object Object]".
Proof. intros X. repeat split; by eexists. Qed.

Example slug_of_fp : Content.slug_of_path "src/posts/fp.md" = "fp".
Proof. reflexivity. Qed.

(** Called on [undefined], the parameter pattern of PostPreview and of
    Hike raises; HikeWithPreview, which has no pattern, does not. *)
Example PostPreview_undefined :
  ∃ err, @PostPreview example_host VUndefined = Throw err.
Proof. by eexists. Qed.

(** A slug that has no string makes the template literal of PostPreview
    raise. *)
Example PostPreview_unprintable_slug :
  ∀ X : ExoticObjects,
    ∃ err, @PostPreview X (VObj {[ "slug" := unprintable ]}) = Throw err.
Proof. intros X. by eexists. Qed.

Example Hike_null : ∃ err, @Hike example_host VNull = Throw err.
Proof. by eexists. Qed.

Example HikeWithPreview_undefined :
  @HikeWithPreview example_host VUndefined
    = Normal (VElem (Comp cHike) None VNull ∅).
Proof. reflexivity. Qed.

(** From the file to the link: [src/posts/fp.md] loads into a Post whose
    preview links to [/posts/fp]. *)
Example fp_preview_link :
  ∃ post e,
    Content.load {| Content.path := "src/posts/fp.md";
                    Content.front_matter := Content.fp_md;
                    Content.text := "" |} = inr post ∧
    @PostPreview example_host (VObj (Content.post_object post)) = Normal e ∧
    link_targets e = [VStr "/posts/fp"].
Proof.
  eexists _, _. split; [reflexivity|]. split; [reflexivity|].
  by vm_compute.
Qed.

(** The Intro banner: a [section] with the heading and the byline, and no
    link of next/link. *)
Example Intro_shape :
  ∃ e h1 h4,
    Intro VUndefined = Normal e ∧
    elem_type e = Some (Host "section") ∧
    elem_children e = [h1; h4] ∧
    elem_children h1 = [VStr "Blog."] ∧
    link_targets e = [].
Proof. eexists _, _, _. repeat split; reflexivity. Qed.

(** The banner as markup: the heading, and the byline with its anchor. *)
Example Intro_markup :
  ∃ section_attrs h1_attrs h4_attrs a_attrs,
    @render example_host example_imports 7 (jsx (Comp cIntro) ∅ [])
      = Some (Normal
          [MTag "section" section_attrs
             [MTag "h1" h1_attrs [MText "Blog."];
              MTag "h4" h4_attrs
                [MText "by"; MText " ";
                 MTag "a" a_attrs [MText "Johnny Jiang"]]]]) ∧
    a_attrs !! "href" = Some (VStr "https://github.com/Neo42").
Proof. eexists _, _, _, _. split; reflexivity. Qed.

(* ===================================================================== *)
(** ** More on Hike: what reaches HikeSteps *)
(* ===================================================================== *)

Section hike_more.
Context `{ExoticObjects}.

(** X1.  The [editorProps] Hike hands to HikeSteps are the editor defaults
    [{codeProps: {minColumns: 40}, frameProps: {button: null}}] overridden
    key by key by the caller's [editorProps] (one level deep: a caller's
    [codeProps] stands for the whole default [codeProps]); a caller whose
    [editorProps] is missing or spreads nothing gets the defaults. *)
Theorem Hike_editorProps_merged (props : gmap string jsval) :
  ∃ e ep, Hike (VObj props) = Normal e ∧
    elem_prop e "editorProps" = Some (VObj ep) ∧
    (∀ k, ep !! k = match own_props (get props "editorProps") !! k with
                    | Some v => Some v
                    | None => editor_defaults !! k
                    end) ∧
    (spreads_nothing (get props "editorProps") = true →
       ep = editor_defaults).
Proof.
  destruct (Hike_element props) as (eprops & He & Hep & _).
  eexists _, _. split; [exact He|]. split; [exact Hep|]. split.
  - intros k. unfold assign. rewrite lookup_union.
    by destruct (_ !! k), (editor_defaults !! k).
  - intros Hs. unfold assign.
    destruct (get props "editorProps"); try done;
      cbn [own_props]; by rewrite (left_id_L ∅ _).
Qed.

(** X2.  Every prop other than [config], [editorProps] and the names
    React reserves reaches HikeSteps as the caller passed it, [classes]
    and [preset] included; where the caller passes none, [classes] and
    [preset] are the module's and any other prop is absent.  A reserved
    name is no prop of the element. *)
Theorem Hike_props_pass_through (props : gmap string jsval) (k : string) :
  k ≠ "config" → k ≠ "editorProps" →
  ∃ e, Hike (VObj props) = Normal e ∧
    elem_prop e k = (if decide (k ∈ reserved_props) then None
                     else match props !! k with
                          | Some v => Some v
                          | None => overridable_defaults !! k
                          end).
Proof.
  intros Hc He. destruct (Hike_element props) as (eprops & Hr & _ & _ & Hk).
  eexists. split; [exact Hr|]. cbn. by rewrite Hk.
Qed.

(** X3.  When the caller's [config] is missing, [undefined], [null], a
    boolean or a number, the configuration handed to HikeSteps is exactly
    the defaults. *)
Theorem Hike_config_not_object (props : gmap string jsval) :
  spreads_nothing (get props "config") = true →
  ∃ e, Hike (VObj props) = Normal e ∧
    delegated_config e = Some stated_defaults.
Proof.
  intros Hs. destruct (Hike_element props) as (eprops & Hr & _ & Hcfg & _).
  eexists. split; [exact Hr|]. cbn [delegated_config]. rewrite Hcfg.
  f_equal. unfold assign.
  destruct (get props "config"); try done;
    cbn [own_props]; by rewrite (left_id_L ∅ _).
Qed.

(** X4.  Whatever the props, the configuration handed to HikeSteps has
    both [noPreview] and [defaultFileName]. *)
Theorem Hike_config_keys (props : gmap string jsval) :
  ∃ e cfg, Hike (VObj props) = Normal e ∧
    delegated_config e = Some cfg ∧
    is_Some (cfg !! "noPreview") ∧ is_Some (cfg !! "defaultFileName").
Proof.
  destruct (Hike_element props) as (eprops & Hr & _ & Hcfg & _).
  eexists _, _. split; [exact Hr|]. cbn [delegated_config]. rewrite Hcfg.
  split; [done|]. unfold assign.
  split; rewrite lookup_union; by destruct (own_props _ !! _).
Qed.



(** X8.  Given props with no [config] of their own, HikeWithNoPreview
    renders to a HikeSteps element whose configuration is exactly
    [{noPreview: true, defaultFileName: 'App.js'}], and whose other props,
    the reserved names apart, are those Hike passes through. *)
Theorem HikeWithNoPreview_exact_config (props : gmap string jsval) :
  props !! "config" = None →
  ∃ e, HikeWithNoPreview (VObj props) ≫= instantiate = Normal e ∧
    delegated_config e
      = Some {[ "noPreview" := VBool true;
                "defaultFileName" := VStr "App.js" ]} ∧
    ∀ k, k ≠ "config" → k ≠ "editorProps" → k ∉ reserved_props →
      elem_prop e k = match props !! k with
                      | Some v => Some v
                      | None => overridable_defaults !! k
                      end.
Proof.
  intros Hc. rewrite HikeWithNoPreview_step. cbn [own_props].
  set (wrapped :=
         strip_reserved
           (assign {[ "config" := VObj {[ "noPreview" := VBool true ]} ]}
              props)).
  destruct (Hike_element wrapped) as (eprops & Hr & _ & Hcfg & Hk).
  eexists. split; [exact Hr|]. split.
  - cbn [delegated_config]. rewrite Hcfg. f_equal.
    unfold wrapped. rewrite get_strip_reserved by compute_done.
    unfold get, assign. rewrite (lookup_union_r props) by done.
    rewrite lookup_singleton_eq. cbn [default from_option id own_props].
    apply map_eq. intros k. rewrite lookup_union.
    destruct (decide (k = "noPreview")) as [->|]; [done|].
    rewrite lookup_singleton_ne by done. rewrite (left_id_L None _).
    unfold stated_defaults. by rewrite !(lookup_insert_ne _ "noPreview").
  - intros k Hkc Hke Hkr. cbn. rewrite Hk by done.
    rewrite decide_False by done. unfold wrapped.
    rewrite lookup_strip_reserved_ne by done. unfold assign.
    rewrite lookup_union, lookup_singleton_ne by done.
    by destruct (props !! k).
Qed.

(* ===================================================================== *)
(** ** Rendering at the root *)
(* ===================================================================== *)

Lemma render_root_host n tag key ref props :
  render_root n (VElem (Host tag) key ref props)
    = Normal (VElem (Host tag) key ref props).
Proof. by apply render_root_external. Qed.

Lemma render_root_value n v :
  elem_type v = None → render_root n v = Normal v.
Proof.
  intros Hv. induction n as [|n IH]; [done|].
  cbn [render_root]. by destruct v.
Qed.

Lemma render_root_Hike n key ref props :
  ∃ e, render_root (S n) (VElem (Comp cHike) key ref props) = Normal e ∧
       Hike (VObj (strip_reserved props)) = Normal e ∧
       elem_type e = Some (Comp cHikeSteps).
Proof.
  destruct (Hike_element (strip_reserved props)) as (eprops & Hr & _).
  eexists. split; [|split; [exact Hr|done]].
  cbn [render_root instantiate call]. rewrite Hr.
  cbn [mbind completion_bind]. by apply render_root_HikeSteps.
Qed.

Lemma render_Hike_children n key ref props :
  ∃ e, render_root (S n) (VElem (Comp cHike) key ref props) = Normal e ∧
       elem_type e = Some (Comp cHikeSteps) ∧
       elem_prop e "children" = props !! "children".
Proof.
  destruct (render_root_Hike n key ref props) as (e & Hr & He & Hty).
  destruct (Hike_element (strip_reserved props))
    as (eprops & He' & _ & _ & Hk).
  exists e. split; [exact Hr|]. split; [exact Hty|].
  rewrite He in He'. injection He' as ->. cbn.
  rewrite Hk by done. rewrite decide_False by compute_done.
  rewrite lookup_strip_reserved_ne by compute_done.
  by destruct (props !! "children").
Qed.

(** What PostPreview returns is a host element. *)
Lemma PostPreview_host (props : gmap string jsval) (e : jsval) :
  PostPreview (VObj props) = Normal e → elem_type e = Some (Host "div").
Proof.
  unfold PostPreview. cbn [destructure own_props mbind completion_bind].
  destruct (to_string (get props "slug")); [|done].
  cbn [mbind completion_bind]. by intros [= <-].
Qed.

(** X9.  Rendering at the root is settled after two steps: an element of
    a component of the sources is replaced by a host element or by an
    element of an imported component in at most two calls, and no
    component of the sources renders itself.  It raises for one kind of
    value only: a PostPreview element whose slug has no string. *)
Theorem render_root_settles (v : jsval) (n : nat) :
  render_root (2 + n) v = render_root 2 v ∧
  ((∃ err, render_root 2 v = Throw err) ↔
   ∃ key ref props,
     v = VElem (Comp cPostPreview) key ref props ∧
     to_string_raises (get props "slug") = true).
Proof.
  destruct v as [| | | | | | |[tag|c] key ref props].
  1-7: (split; [by rewrite !render_root_value|];
        rewrite render_root_value by done;
        split; [by intros [? ?]|by intros (?&?&?&?&?)]).
  { rewrite !render_root_host.
    split; [done|]. split; [by intros [? ?]|by intros (?&?&?&?&?)]. }
  destruct c;
    try (rewrite !render_root_external by (by intros ? [= <-]);
         split; [done|];
         split; [by intros [? ?]|by intros (?&?&?&?&?)]).
  - cbn [Nat.add render_root instantiate call]. unfold Intro, jsx.
    cbn [mbind completion_bind instantiate]. rewrite !render_root_host.
    split; [done|]. split; [by intros [? ?]|by intros (?&?&?&?&?)].
  - cbn [Nat.add render_root instantiate call].
    destruct (PostPreview (VObj (strip_reserved props))) as [e|err] eqn:He.
    + apply PostPreview_host in He as Hty.
      destruct e as [| | | | | | |ty key' ref' eprops]; try done.
      injection Hty as ->. cbn [mbind completion_bind instantiate].
      rewrite !render_root_host. split; [done|].
      split; [by intros [? ?]|].
      intros (key'' & ref'' & props'' & [= <- <- <-] & Hraises).
      rewrite <- (get_strip_reserved _ "slug") in Hraises by compute_done.
      apply PostPreview_raises_obj in Hraises as [err Herr]. congruence.
    + cbn [mbind completion_bind]. split; [done|]. split; [|by eexists].
      intros _. exists key, ref, props. split; [done|].
      rewrite <- (get_strip_reserved _ "slug") by compute_done.
      apply PostPreview_raises_obj. by eexists.
  - destruct (render_root_Hike (S n) key ref props) as (e & Hr & He & Hty).
    destruct (render_root_Hike 1 key ref props) as (e' & Hr' & He' & _).
    change (2 + n)%nat with (S (S n)). rewrite Hr, Hr'.
    split; [congruence|].
    split; [by intros [? ?]|by intros (?&?&?&?&?)].
  - change (render_root (2 + n) (VElem (Comp cHikeWithPreview) key ref props))
      with (HikeWithPreview (VObj (strip_reserved props))
              ≫= render_root (S n)).
    change (render_root 2 (VElem (Comp cHikeWithPreview) key ref props))
      with (HikeWithPreview (VObj (strip_reserved props))
              ≫= render_root 1).
    unfold HikeWithPreview, jsx. cbn [mbind completion_bind].
    match goal with
    | |- context [render_root (S n) (VElem (Comp cHike) ?k ?r ?p)] =>
        destruct (render_root_Hike n k r p) as (e & Hr & He & Hty);
        destruct (render_root_Hike 0 k r p) as (e' & Hr' & He' & _)
    end.
    rewrite Hr, Hr'. split; [congruence|].
    split; [by intros [? ?]|by intros (?&?&?&?&?)].
  - change (render_root (2 + n)
              (VElem (Comp cHikeWithNoPreview) key ref props))
      with (HikeWithNoPreview (VObj (strip_reserved props))
              ≫= render_root (S n)).
    change (render_root 2 (VElem (Comp cHikeWithNoPreview) key ref props))
      with (HikeWithNoPreview (VObj (strip_reserved props))
              ≫= render_root 1).
    unfold HikeWithNoPreview, jsx. cbn [mbind completion_bind].
    match goal with
    | |- context [render_root (S n) (VElem (Comp cHike) ?k ?r ?p)] =>
        destruct (render_root_Hike n k r p) as (e & Hr & He & Hty);
        destruct (render_root_Hike 0 k r p) as (e' & Hr' & He' & _)
    end.
    rewrite Hr, Hr'. split; [congruence|].
    split; [by intros [? ?]|by intros (?&?&?&?&?)].
Qed.

End hike_more.

(** Witnesses. *)

Lemma Hike_custom_classes :
  ∃ e, @Hike example_host (VObj custom_classes_props) = Normal e ∧
       elem_prop e "classes" = Some custom_classes.
Proof.
  assert ("classes" ≠ "config") as Hc by discriminate.
  assert ("classes" ≠ "editorProps") as He by discriminate.
  destruct (@Hike_props_pass_through example_host custom_classes_props
              "classes" Hc He) as (e & Hr & Hclasses).
  exists e. split; [exact Hr|exact Hclasses].
Defined.

Lemma Hike_null_config :
  spreads_nothing (get null_config_props "config") = true ∧
  ∃ e, @Hike example_host (VObj null_config_props) = Normal e ∧
       delegated_config e = Some stated_defaults.
Proof.
  split; [reflexivity|].
  apply (@Hike_config_not_object example_host null_config_props).
  reflexivity.
Defined.

Lemma HikeWithNoPreview_file_name_config :
  @HikeWithNoPreview example_host (VObj config_props)
    ≫= @instantiate example_host
  = @Hike example_host (VObj config_props).
Proof.
  exact (@HikeWithNoPreview_with_config example_host config_props
           (VObj file_name_config) eq_refl).
Defined.

Lemma HikeWithNoPreview_children_config :
  children_props !! "config" = None ∧
  ∃ e, @HikeWithNoPreview example_host (VObj children_props)
         ≫= @instantiate example_host = Normal e ∧
       delegated_config e
         = Some {[ "noPreview" := VBool true;
                   "defaultFileName" := VStr "App.js" ]}.
Proof.
  assert (children_props !! "config" = None) as Hc by reflexivity.
  split; [exact Hc|].
  destruct (@HikeWithNoPreview_exact_config example_host children_props Hc)
    as (e & He & Hcfg & _).
  by exists e.
Defined.


Lemma PostPreview_sample_and_other :
  ∃ e1 e2,
    @PostPreview example_host (VObj sample_props) = Normal e1 ∧
    @PostPreview example_host (VObj other_props) = Normal e2 ∧
    head (link_targets e1) ≠ head (link_targets e2).
Proof.
  assert ("sample" ≠ "other") as Hne by discriminate.
  destruct (@PostPreview_distinct_slugs example_host sample_props other_props
              "sample" "other" eq_refl eq_refl Hne)
    as (e1 & e2 & t1 & t2 & H1 & H2 & Ht1 & Ht2 & Hdiff).
  exists e1, e2. split; [exact H1|]. split; [exact H2|].
  rewrite Ht1, Ht2. intros [= Heq]. exact (Hdiff Heq).
Defined.

(* ===================================================================== *)
(** ** The syntax theme *)
(* ===================================================================== *)

Section theme_facts.
Import Theme.

Lemma applicable_elem rules ancestors classes prop n v :
  (n, v) ∈ applicable rules ancestors classes prop →
  ∃ r, r ∈ rules ∧ property r = prop ∧ value r = v ∧
       Exists (λ s, matches ancestors classes s = true) (selectors r).
Proof.
  unfold applicable. rewrite list_elem_of_omap.
  intros (r & Hr & Hsome). exists r. split; [done|].
  destruct (decide (property r = prop)) as [Hp|]; [|done].
  destruct (filter _ (selectors r)) as [|s ss] eqn:Hf; [done|].
  injection Hsome as _ <-. repeat split; [done|].
  apply Exists_exists. exists s.
  assert (s ∈ filter (λ s, matches ancestors classes s = true) (selectors r))
    as Hs by (rewrite Hf; left).
  by apply list_elem_of_filter in Hs as [? ?].
Qed.

Lemma applicable_nil rules ancestors classes prop :
  Forall (λ r, Forall (λ s, matches ancestors classes s = false)
                 (selectors r)) rules →
  applicable rules ancestors classes prop = [].
Proof.
  intros Hall. destruct (applicable rules ancestors classes prop)
    as [|[n v] rest] eqn:Happ; [done|].
  assert ((n, v) ∈ applicable rules ancestors classes prop) as Hin
    by (rewrite Happ; left).
  apply applicable_elem in Hin as (r & Hr & _ & _ & Hex).
  rewrite Forall_forall in Hall. specialize (Hall r Hr).
  apply Exists_exists in Hex as (s & Hs & Hm).
  rewrite Forall_forall in Hall. specialize (Hall s Hs). congruence.
Qed.

Lemma cascade_pick (l : list (nat * css_value)) :
  l ≠ [] →
  ∃ c, c ∈ l ∧
    foldl (λ best cand,
             match best with
             | Some b => if (cand.1 <? b.1)%nat then Some b else Some cand
             | None => Some cand
             end) None l = Some c.
Proof.
  intros Hne.
  assert (∀ (l : list (nat * css_value)) (b : nat * css_value),
            ∃ c, (c = b ∨ c ∈ l) ∧
              foldl (λ best cand,
                       match best with
                       | Some b => if (cand.1 <? b.1)%nat
                                   then Some b else Some cand
                       | None => Some cand
                       end) (Some b) l = Some c) as Hgen.
  { clear. induction l as [|x l IH]; intros b.
    - exists b. split; [by left|done].
    - cbn [foldl]. destruct (x.1 <? b.1)%nat.
      + destruct (IH b) as (c & Hc & Hf). exists c. split; [|done].
        destruct Hc as [->|Hc]; [by left|right; by right].
      + destruct (IH x) as (c & Hc & Hf). exists c. split; [|done].
        right. destruct Hc as [->|Hc]; [left|by right]. }
  destruct l as [|x l]; [done|]. cbn [foldl].
  destruct (Hgen l x) as (c & Hc & Hf). exists c. split; [|done].
  destruct Hc as [->|Hc]; [left|by right].
Qed.

(** What the cascade yields is the value of a rule of the property. *)
Lemma cascade_value rules ancestors classes prop v :
  cascade rules ancestors classes prop = Some v →
  ∃ r, r ∈ rules ∧ property r = prop ∧ value r = v.
Proof.
  unfold cascade. intros Hc.
  destruct (applicable rules ancestors classes prop) as [|x l] eqn:Happ;
    [done|].
  destruct (cascade_pick (x :: l)) as ([n w] & Hin & Hpick); [done|].
  rewrite Hpick in Hc. injection Hc as <-.
  rewrite <- Happ in Hin.
  apply applicable_elem in Hin as (r & Hr & Hp & Hv & _). by exists r.
Qed.

(** Every colour rule of the theme takes its colour from a custom
    property, and the palette declares it. *)
Lemma color_rules_use_palette :
  Forall (λ r, property r = "color" →
               ∃ name hex, value r = Var name ∧
                           lookup_var palette name = Some hex ∧
                           hex ∈ palette.*2)
    token_rules.
Proof.
  unfold token_rules.
  repeat apply Forall_cons_2; [..|apply Forall_nil_2];
    cbn [property value]; intros Hc; try discriminate Hc;
    (eexists _, _; split; [reflexivity|]; split; [reflexivity|compute_done]).
Qed.

(** X15.  Whenever some colour rule of the theme applies to a token
    inside a code block, a [pre[class*='language-']], the cascade yields
    a colour, and it is one of the palette: no colour rule refers to a
    custom property the palette lacks.  Outside such a block, where the
    palette is not declared, the token rules give a token no colour. *)
Theorem token_color_defined (ancestors classes : list string) :
  applicable token_rules ancestors classes "color" ≠ [] →
  (∃ hex, token_color_at true ancestors classes = Some hex ∧
          hex ∈ palette.*2) ∧
  token_color_at false ancestors classes = None.
Proof.
  intros Hne. destruct (cascade_pick _ Hne) as ([n v] & Hin & Hpick).
  assert (cascade token_rules ancestors classes "color" = Some v) as Hc
    by (unfold cascade; by rewrite Hpick).
  destruct (cascade_value _ _ _ _ _ Hc) as (r & Hr & Hp & Hv).
  pose proof color_rules_use_palette as Hall.
  rewrite Forall_forall in Hall.
  destruct (Hall r Hr Hp) as (name & hex & Hvar & Hlookup & Hhex).
  unfold token_color_at. rewrite Hc. cbn [mbind option_bind].
  rewrite <- Hv, Hvar. split; [by exists hex|done].
Qed.

Lemma matches_unnamed (cls : string) (s : selector) :
  selector_class s ≠ cls → selector_class s ≠ "token" →
  matches [] ["token"; cls] s = false.
Proof.
  intros Hc Ht.
  assert (selector_class s ∉ ["token"; cls]) as Hnot.
  { rewrite !elem_of_cons, elem_of_nil. by intros [?|[?|[]]]. }
  destruct s as [c|a c]; cbn in *;
    by apply andb_false_intro2, bool_decide_eq_false.
Qed.

(** X16.  Outside a CSS or style context, a token of one class is coloured
    by at most one rule, except [deleted]: two rules colour it, and the
    later one, [--falsy], wins over [--property]. *)
Theorem deleted_is_coloured_twice (cls : string) :
  (cls ≠ "deleted" →
     (length (applicable token_rules [] ["token"; cls] "color") ≤ 1)%nat) ∧
  (cls = "deleted" →
     applicable token_rules [] ["token"; cls] "color"
       = [(2, Var "property"); (2, Var "falsy")] ∧
     token_color [] ["token"; cls] = lookup_var palette "falsy").
Proof.
  split; [|by intros ->].
  intros Hne. destruct (decide (cls ∈ named_classes)) as [Hin|Hout].
  - let l := eval vm_compute in named_classes in
    change named_classes with l in Hin.
    rewrite !elem_of_cons, elem_of_nil in Hin.
    repeat (destruct Hin as [->|Hin]; [first [done|vm_compute; lia]|]).
    done.
  - rewrite applicable_nil; [cbn; lia|].
    apply Forall_forall. intros r Hr. apply Forall_forall. intros s Hs.
    assert (selector_class s ∈ named_classes) as Hnamed.
    { unfold named_classes. apply list_elem_of_fmap_2.
      apply list_elem_of_bind. by exists r. }
    apply matches_unnamed.
    + intros Heq. by rewrite Heq in Hnamed.
    + intros Heq. rewrite Heq in Hnamed. revert Hnamed. compute_done.
Qed.

Lemma keyword_color :
  applicable token_rules [] ["token"; "keyword"] "color" ≠ [] ∧
  (∃ hex, token_color_at true [] ["token"; "keyword"] = Some hex ∧
          hex ∈ palette.*2) ∧
  token_color_at false [] ["token"; "keyword"] = None.
Proof.
  assert (applicable token_rules [] ["token"; "keyword"] "color" ≠ [])
    as Hne by (vm_compute; discriminate).
  split; [exact Hne|].
  exact (token_color_defined [] ["token"; "keyword"] Hne).
Defined.
End theme_facts.

(* ===================================================================== *)
(** ** Dates of the content set *)
(* ===================================================================== *)

(** X17.  Every front matter of the content set gives its date as a
    calendar date written [YYYY-MM-DD]. *)
Theorem content_set_dates :
  Forall (λ entry, ∃ d, entry.2 !! "date" = Some (VStr d) ∧ iso_date d = true)
    Content.content_set.
Proof.
  unfold Content.content_set.
  repeat apply Forall_cons_2; [..|apply Forall_nil_2];
    (eexists; split; [vm_compute; reflexivity|by vm_compute]).
Qed.
